(** * claude-session-search: session log parsing and aggregation views

    A shallow embedding of the TypeScript sources of the session search
    server ([types.ts], [parsers/session-parser.ts] and the handlers
    under [tools/]), followed by the properties of its specification
    that were checked against it.

    Modelling conventions.
    - JavaScript strings are [string]s, sequences of 8-bit characters;
      [toLowerCase] acts on the ASCII letters.
    - The numbers that hold counts, limits, offsets and sizes are
      integers of [Z].  The time value [new Date(s).getTime()] is an
      [option Z], [None] standing for NaN; the function from strings to
      time values is a parameter [getTime] of the views that read dates,
      and so is the reading [now] of the clock.
    - A session file is the list of its lines: a line is blank, fails
      [JSON.parse], or decodes to a record.  The directory
      [CLAUDE_HOME/projects] is a value handed to every view.
    - A function that may throw returns [Return] or [Throw]; a handler
      returns [successResponse] with its payload or [errorResponse] with
      the message of the error envelope.
    - The loops over directories, files and lines are structural
      recursions or folds; [break] ends the recursion, [continue] goes
      on with the rest of the list. *)

From Stdlib Require Import String Ascii List ZArith Lia Bool.
From Stdlib Require Import Numbers.DecimalString.
From Stdlib Require Import Sorting.Permutation Sorting.Sorted.
Import ListNotations.

Open Scope string_scope.
Open Scope Z_scope.

(** ** JavaScript primitives used by the sources *)

Module Js.

(** [Boolean(s)] for a string: only the empty string is falsy. *)
Definition truthy (s : string) : bool :=
  match s with EmptyString => false | String _ _ => true end.

(** [Boolean(x)] for a field that is a string or is absent. *)
Definition truthyOpt (o : option string) : bool :=
  match o with Some s => truthy s | None => false end.

(** [x || d] for an optional string [x] and a string [d]. *)
Definition orElse (o : option string) (d : string) : string :=
  match o with
  | Some s => if truthy s then s else d
  | None => d
  end.

(** [x || undefined]. *)
Definition orUndefined (o : option string) : option string :=
  if truthyOpt o then o else None.

Definition lowerChar (c : ascii) : ascii :=
  let n := nat_of_ascii c in
  if (Nat.leb 65 n && Nat.leb n 90)%bool then ascii_of_nat (n + 32) else c.

Fixpoint toLowerCase (s : string) : string :=
  match s with
  | EmptyString => EmptyString
  | String c s' => String (lowerChar c) (toLowerCase s')
  end.

Definition startsWith (s p : string) : bool := String.prefix p s.

(** [s.includes(sub)]. *)
Fixpoint includes (s sub : string) : bool :=
  if String.prefix sub s then true
  else match s with
       | EmptyString => false
       | String _ s' => includes s' sub
       end.

Fixpoint indexOfFrom (s sub : string) (i : Z) : Z :=
  if String.prefix sub s then i
  else match s with
       | EmptyString => -1
       | String _ s' => indexOfFrom s' sub (i + 1)
       end.

(** [s.indexOf(sub)]. *)
Definition indexOf (s sub : string) : Z := indexOfFrom s sub 0.

Definition len (s : string) : Z := Z.of_nat (String.length s).

(** [s.substring(a, b)]: both ends are clamped to [0 .. s.length] and
    swapped when [a > b]. *)
Definition substring (s : string) (a b : Z) : string :=
  let a' := Z.min (Z.max 0 a) (len s) in
  let b' := Z.min (Z.max 0 b) (len s) in
  let lo := Z.min a' b' in
  let hi := Z.max a' b' in
  String.substring (Z.to_nat lo) (Z.to_nat (hi - lo)) s.

Definition endsWith (s suf : string) : bool :=
  (String.length suf <=? String.length s)%nat
  && (String.substring (String.length s - String.length suf)
                       (String.length suf) s =? suf)%string.

(** [s.replace(pat, rep)] for a string pattern: the first occurrence. *)
Fixpoint replaceFirst (s pat rep : string) : string :=
  if String.prefix pat s
  then rep ++ String.substring (String.length pat)
                               (String.length s - String.length pat) s
  else match s with
       | EmptyString => EmptyString
       | String c s' => String c (replaceFirst s' pat rep)
       end.

(** [s.replace(/^-/, '')]. *)
Definition stripLeadingDash (s : string) : string :=
  match s with
  | String "-"%char s' => s'
  | _ => s
  end.

(** [s.replace(/-/g, '/')]. *)
Fixpoint dashesToSlashes (s : string) : string :=
  match s with
  | EmptyString => EmptyString
  | String c s' =>
      String (if Ascii.eqb c "-"%char then "/"%char else c)
             (dashesToSlashes s')
  end.

(** [s.split('/').pop()]: what follows the last slash. *)
Fixpoint lastSegmentAux (s acc : string) : string :=
  match s with
  | EmptyString => acc
  | String c s' =>
      if Ascii.eqb c "/"%char then lastSegmentAux s' EmptyString
      else lastSegmentAux s' (acc ++ String c EmptyString)
  end.

Definition lastSegment (s : string) : string := lastSegmentAux s EmptyString.

(** [arr.join(sep)]. *)
Definition join (sep : string) (l : list string) : string :=
  String.concat sep l.

(** The decimal text of an integer inside a template literal. *)
Definition showZ (n : Z) : string := NilEmpty.string_of_int (Z.to_int n).

(** [arr.slice(a, b)]: a negative index counts from the end. *)
Definition sliceIndex (n i : Z) : Z :=
  if i <? 0 then Z.max (n + i) 0 else Z.min i n.

Definition slice {A : Type} (l : list A) (a b : Z) : list A :=
  let n := Z.of_nat (List.length l) in
  let k := sliceIndex n a in
  let final := sliceIndex n b in
  firstn (Z.to_nat (Z.max (final - k) 0)) (skipn (Z.to_nat k) l).

(** The line feed of ['\n']. *)
Definition newline : string := String (ascii_of_nat 10) EmptyString.

(** Numbers that may be NaN: time values of dates. *)
Definition num := option Z.

(** [a < b] and [a > b]; a comparison with NaN is false. *)
Definition lt (a b : num) : bool :=
  match a, b with Some x, Some y => x <? y | _, _ => false end.

Definition gt (a b : num) : bool := lt b a.

(** [a - b]. *)
Definition sub (a b : num) : num :=
  match a, b with Some x, Some y => Some (x - y) | _, _ => None end.

Definition neg (a : num) : num := option_map Z.opp a.

(** [Math.abs]. *)
Definition abs (a : num) : num := option_map Z.abs a.

(** [arr.sort(cmp)]: the sort is stable; an element moves in front of
    another only when the comparator is negative, and a NaN result
    orders nothing. *)
Fixpoint insertBy {A : Type} (cmp : A -> A -> num) (x : A) (l : list A)
  : list A :=
  match l with
  | [] => [x]
  | y :: l' =>
      if lt (cmp x y) (Some 0) then x :: y :: l'
      else y :: insertBy cmp x l'
  end.

Definition sort {A : Type} (cmp : A -> A -> num) (l : list A) : list A :=
  fold_left (fun acc x => insertBy cmp x acc) l [].

End Js.

(** ** [types.ts]: decoded records, content and response envelopes *)

Module Types.

(** The [input] object of a [tool_use] block: the fields the views read. *)
Record ToolInput := {
  file_path : option string;
  path : option string;
  subagent_type : option string;
  description : option string;
  prompt : option string;
  command : option string
}.

(** [item.input || {}]. *)
Definition emptyInput : ToolInput :=
  {| file_path := None; path := None; subagent_type := None;
     description := None; prompt := None; command := None |}.

(** An object inside a content array. *)
Record Block := {
  type : option string;
  text : option string;
  name : option string;
  input : option ToolInput
}.

(** [item.type === t]. *)
Definition hasType (b : Block) (t : string) : bool :=
  match type b with Some s => (s =? t)%string | None => false end.

(** An element of a content array: a bare string or an object. *)
Inductive Item :=
| ItemString (s : string)
| ItemBlock (b : Block).

(** [message.content]: [string | any[]], or anything else. *)
Inductive Content :=
| ContentString (s : string)
| ContentArray (items : list Item)
| ContentOther.

Record Message := {
  role : string;
  content : Content
}.

(** A response envelope: [successResponse(data)] or
    [errorResponse(message)]. *)
Inductive ToolResult (A : Type) :=
| successResponse (data : A)
| errorResponse (message : string).

Arguments successResponse {A} data.
Arguments errorResponse {A} message.


(** The outcome of a function that may throw an [Error]. *)
Inductive Except (A : Type) :=
| Return (value : A)
| Throw (message : string).

Arguments Return {A} value.
Arguments Throw {A} message.

(** [try { return successResponse(await f()) } catch (error)
    { return errorResponse(error.message) }]. *)
Definition respond {A : Type} (r : Except A) : ToolResult A :=
  match r with
  | Return v => successResponse v
  | Throw m => errorResponse m
  end.

End Types.

(** The interface [SessionMessage]: one decoded line of a session file. *)
Module SessionMessage.
Record t := {
  type : string;
  timestamp : option string;
  gitBranch : option string;
  summary : option string;
  message : option Types.Message
}.

Definition isUserOrAssistant (m : t) : bool :=
  ((type m =? "user") || (type m =? "assistant"))%string.

(** [msg.type === 'summary' && msg.summary]. *)
Definition isSummary (m : t) : bool :=
  ((type m =? "summary")%string && Js.truthyOpt (summary m))%bool.
End SessionMessage.

(** The interface [SessionMessage_Output]. *)
Module SessionMessage_Output.
Record t := {
  role : string;
  content : string;
  timestamp : string
}.
End SessionMessage_Output.

(** The interface [SessionInfo]. *)
Module SessionInfo.
Record t := {
  sessionId : string;
  project : string;
  summary : option string;
  messageCount : Z;
  startedAt : string;
  lastActivityAt : string;
  sizeBytes : Z;
  gitBranch : option string
}.

Definition withSize (i : t) (n : Z) : t :=
  {| sessionId := sessionId i; project := project i; summary := summary i;
     messageCount := messageCount i; startedAt := startedAt i;
     lastActivityAt := lastActivityAt i; sizeBytes := n;
     gitBranch := gitBranch i |}.
End SessionInfo.

(** ** The file system under [CLAUDE_HOME/projects] *)

Module Fs.

(** What [readline] yields for one line of a session file. *)
Inductive Line :=
| BlankLine                          (* [!line.trim()] *)
| MalformedLine                      (* [JSON.parse] throws *)
| JsonLine (msg : SessionMessage.t).

Record SessionFile := {
  size : Z;                          (* [stat(...).size] *)
  lines : list Line
}.

(** The outcome of [readdir] on a project directory. *)
Inductive Listing :=
| NotListable (error : string)
| Entries (files : list (string * SessionFile)).

Record ProjectDir := {
  dirName : string;
  listing : Listing
}.

(** The outcome of [readdir(projectsDir)]. *)
Inductive Root :=
| Unreadable (error : string)
| Projects (dirs : list ProjectDir).

Fixpoint lookup (files : list (string * SessionFile)) (name : string)
  : option SessionFile :=
  match files with
  | [] => None
  | (n, f) :: rest => if (n =? name)%string then Some f else lookup rest name
  end.

(** [await stat(`${projectsDir}/${projectDir}/${sessionId}.jsonl`)]:
    [None] when it throws. *)
Definition stat (d : ProjectDir) (sessionId : string) : option SessionFile :=
  match listing d with
  | NotListable _ => None
  | Entries files => lookup files (sessionId ++ ".jsonl")
  end.

(** [projectDir.replace(/^-/, '').replace(/-/g, '/')]. *)
Definition projectPath (d : ProjectDir) : string :=
  Js.dashesToSlashes (Js.stripLeadingDash (dirName d)).

(** [!file.endsWith('.jsonl') || file.startsWith('agent-')]. *)
Definition notASession (file : string) : bool :=
  (negb (Js.endsWith file ".jsonl") || Js.startsWith file "agent-")%bool.

(** [file.replace('.jsonl', '')]. *)
Definition sessionIdOf (file : string) : string :=
  Js.replaceFirst file ".jsonl" "".

End Fs.

(** ** [parsers/session-parser.ts] *)

(** The statements that the streaming loops of the parser and of the
    handlers share, on the loop's [let] variables. *)
Module Vars.

(** [if (msg.timestamp) { if (!startedAt) startedAt = msg.timestamp }]. *)
Definition stampStart (startedAt ts : option string) : option string :=
  if Js.truthyOpt ts
  then (if negb (Js.truthyOpt startedAt) then ts else startedAt)
  else startedAt.

(** [if (msg.timestamp) { lastActivityAt = msg.timestamp }]. *)
Definition stampLast (lastActivityAt ts : option string) : option string :=
  if Js.truthyOpt ts then ts else lastActivityAt.

(** [if (msg.gitBranch && !gitBranch) gitBranch = msg.gitBranch]. *)
Definition firstBranch (gitBranch b : option string) : option string :=
  if (Js.truthyOpt b && negb (Js.truthyOpt gitBranch))%bool then b
  else gitBranch.

(** [if (msg.type === 'summary' && msg.summary) summary = msg.summary]. *)
Definition lastSummary (summary : option string) (msg : SessionMessage.t)
  : option string :=
  if SessionMessage.isSummary msg then SessionMessage.summary msg
  else summary.

(** The text of a variable inside a template literal. *)
Definition show (o : option string) : string :=
  match o with Some s => s | None => "null" end.

End Vars.

(** The variables of the loop of [getSessionInfo]. *)
Module InfoVars.
Record t := {
  messageCount : Z;
  startedAt : option string;
  lastActivityAt : option string;
  summary : option string;
  gitBranch : option string
}.

Definition init : t :=
  {| messageCount := 0; startedAt := None; lastActivityAt := None;
     summary := None; gitBranch := None |}.
End InfoVars.

(** The elements of [allMessages] in [parseSessionFile]. *)
Module ParsedMessage.
Record t := {
  role : string;
  rawContent : Types.Content;
  timestamp : string
}.
End ParsedMessage.

(** The variables of the loop of [parseSessionFile]. *)
Module ParseVars.
Record t := {
  allMessages : list ParsedMessage.t;
  summary : option string;
  gitBranch : option string;
  startedAt : option string;
  lastActivityAt : option string
}.

Definition init : t :=
  {| allMessages := []; summary := None; gitBranch := None;
     startedAt := None; lastActivityAt := None |}.
End ParseVars.

(** A tool call as the extractors return it: [{ name, input }]. *)
Module ToolCall.
Record t := {
  name : option string;
  input : option Types.ToolInput
}.
End ToolCall.

(** The message shapes of the formats [full], [standard], [minimal]. *)
Module FullMessage.
Record t := {
  role : string;
  timestamp : string;
  content : Types.Content
}.
End FullMessage.

Module StandardMessage.
Record t := {
  role : string;
  timestamp : string;
  text : option string;
  toolCalls : option (list (option string))
}.
End StandardMessage.

Module MinimalMessage.
Record t := {
  role : string;
  timestamp : string;
  contentLength : Z;
  toolCalls : option (list (option string))
}.
End MinimalMessage.

(** The [data] field of the result of [getSession], by format. *)
Inductive SessionData :=
| DataMarkdown (text : string)
| DataJson (messages : list SessionMessage_Output.t)
| DataFull (messages : list FullMessage.t)
| DataStandard (messages : list StandardMessage.t)
| DataMinimal (messages : list MinimalMessage.t)
| DataRaw (messages : list ParsedMessage.t).

(** The result of [getSession] and [parseSessionFile]. *)
Module Session.
Record t := {
  sessionId : string;
  project : string;
  summary : option string;
  gitBranch : option string;
  startedAt : string;
  lastActivityAt : string;
  data : SessionData;
  total : Z;
  hasMore : bool
}.
End Session.

(** The result of [getSessionSummary]. *)
Module SessionSummary.
Record t := {
  sessionId : string;
  summary : string;
  project : string;
  messageCount : Z;
  startedAt : string;
  lastActivityAt : string
}.
End SessionSummary.

Module SessionParser.
Import Types.

(** The callback of [content.map] in [extractContentText]. *)
Definition itemText (item : Item) : string :=
  match item with
  | ItemString s => s
  | ItemBlock b =>
      if (hasType b "text" && Js.truthyOpt (text b))%bool
      then Js.orElse (text b) ""
      else if (hasType b "tool_use" && Js.truthyOpt (name b))%bool
      then "[Tool: " ++ Js.orElse (name b) "" ++ "]"
      else if hasType b "tool_result"
      then "[Tool Result]"
      else ""
  end.

Definition extractContentText (content : Content) : string :=
  match content with
  | ContentString s => s
  | ContentArray items =>
      Js.join Js.newline (filter Js.truthy (map itemText items))
  | ContentOther => ""
  end.

(** [item.type === 'tool_use']. *)
Definition isToolUse (item : Item) : bool :=
  match item with
  | ItemString _ => false
  | ItemBlock b => hasType b "tool_use"
  end.

Definition toolCallOf (item : Item) : ToolCall.t :=
  match item with
  | ItemString _ => {| ToolCall.name := None; ToolCall.input := None |}
  | ItemBlock b => {| ToolCall.name := name b; ToolCall.input := input b |}
  end.

Definition extractToolCallsFromContent (content : Content)
  : list ToolCall.t :=
  match content with
  | ContentArray items => map toolCallOf (filter isToolUse items)
  | _ => []
  end.

(** The body of the loop of [getSessionInfo]. *)
Definition infoStep (v : InfoVars.t) (line : Fs.Line) : InfoVars.t :=
  match line with
  | Fs.JsonLine msg =>
      let v1 :=
        if SessionMessage.isUserOrAssistant msg
        then {| InfoVars.messageCount := InfoVars.messageCount v + 1;
                InfoVars.startedAt :=
                  Vars.stampStart (InfoVars.startedAt v)
                                  (SessionMessage.timestamp msg);
                InfoVars.lastActivityAt :=
                  Vars.stampLast (InfoVars.lastActivityAt v)
                                 (SessionMessage.timestamp msg);
                InfoVars.summary := InfoVars.summary v;
                InfoVars.gitBranch :=
                  Vars.firstBranch (InfoVars.gitBranch v)
                                   (SessionMessage.gitBranch msg) |}
        else v in
      {| InfoVars.messageCount := InfoVars.messageCount v1;
         InfoVars.startedAt := InfoVars.startedAt v1;
         InfoVars.lastActivityAt := InfoVars.lastActivityAt v1;
         InfoVars.summary := Vars.lastSummary (InfoVars.summary v1) msg;
         InfoVars.gitBranch := InfoVars.gitBranch v1 |}
  | _ => v
  end.

Definition getSessionInfo (file : Fs.SessionFile)
  (sessionId projectPath : string) : option SessionInfo.t :=
  let v := fold_left infoStep (Fs.lines file) InfoVars.init in
  match InfoVars.startedAt v with
  | Some startedAt =>
      if Js.truthy startedAt
      then Some {| SessionInfo.sessionId := sessionId;
                   SessionInfo.project := projectPath;
                   SessionInfo.summary := Js.orUndefined (InfoVars.summary v);
                   SessionInfo.messageCount := InfoVars.messageCount v;
                   SessionInfo.startedAt := startedAt;
                   SessionInfo.lastActivityAt :=
                     Js.orElse (InfoVars.lastActivityAt v) startedAt;
                   SessionInfo.sizeBytes := 0;
                   SessionInfo.gitBranch :=
                     Js.orUndefined (InfoVars.gitBranch v) |}
      else None
  | None => None
  end.

(** The body of the loop of [parseSessionFile]. *)
Definition parseStep (v : ParseVars.t) (line : Fs.Line) : ParseVars.t :=
  match line with
  | Fs.JsonLine msg =>
      let v1 :=
        if SessionMessage.isUserOrAssistant msg
        then {| ParseVars.allMessages :=
                  match SessionMessage.message msg with
                  | Some m =>
                      ParseVars.allMessages v ++
                      [ {| ParsedMessage.role := SessionMessage.type msg;
                           ParsedMessage.rawContent := content m;
                           ParsedMessage.timestamp :=
                             Js.orElse (SessionMessage.timestamp msg) "" |} ]
                  | None => ParseVars.allMessages v
                  end;
                ParseVars.summary := ParseVars.summary v;
                ParseVars.gitBranch :=
                  Vars.firstBranch (ParseVars.gitBranch v)
                                   (SessionMessage.gitBranch msg);
                ParseVars.startedAt :=
                  Vars.stampStart (ParseVars.startedAt v)
                                  (SessionMessage.timestamp msg);
                ParseVars.lastActivityAt :=
                  Vars.stampLast (ParseVars.lastActivityAt v)
                                 (SessionMessage.timestamp msg) |}
        else v in
      {| ParseVars.allMessages := ParseVars.allMessages v1;
         ParseVars.summary := Vars.lastSummary (ParseVars.summary v1) msg;
         ParseVars.gitBranch := ParseVars.gitBranch v1;
         ParseVars.startedAt := ParseVars.startedAt v1;
         ParseVars.lastActivityAt := ParseVars.lastActivityAt v1 |}
  | _ => v
  end.

(** [paginatedMessages.map(...)] of the legacy formats, before the
    filter. *)
Definition legacyMessage (msg : ParsedMessage.t) : SessionMessage_Output.t :=
  {| SessionMessage_Output.role := ParsedMessage.role msg;
     SessionMessage_Output.content :=
       extractContentText (ParsedMessage.rawContent msg);
     SessionMessage_Output.timestamp := ParsedMessage.timestamp msg |}.

(** [msg => includeToolCalls || !msg.content.includes('[Tool')]. *)
Definition keepLegacy (includeToolCalls : bool)
  (msg : SessionMessage_Output.t) : bool :=
  (includeToolCalls
   || negb (Js.includes (SessionMessage_Output.content msg) "[Tool"))%bool.

Definition markdownHead (sessionId projectPath : string) (v : ParseVars.t)
  (startedAt : string) : list string :=
  ["# Session: " ++ sessionId; "**Project:** " ++ projectPath]
  ++ (if Js.truthyOpt (ParseVars.summary v)
      then ["**Summary:** " ++ Vars.show (ParseVars.summary v)] else [])
  ++ (if Js.truthyOpt (ParseVars.gitBranch v)
      then ["**Branch:** " ++ Vars.show (ParseVars.gitBranch v)] else [])
  ++ ["**Started:** " ++ startedAt;
      "**Last Activity:** " ++ Vars.show (ParseVars.lastActivityAt v);
      ""].

Definition markdownMessage (msg : SessionMessage_Output.t) : list string :=
  ["## " ++ (if (SessionMessage_Output.role msg =? "user")%string
             then "User" else "Assistant")
         ++ " (" ++ SessionMessage_Output.timestamp msg ++ ")";
   SessionMessage_Output.content msg;
   ""].

(** [toolCalls.length > 0 ? toolCalls.map(t => t.name) : undefined]. *)
Definition toolCallNames (content : Content) : option (list (option string)) :=
  match extractToolCallsFromContent content with
  | [] => None
  | calls => Some (map ToolCall.name calls)
  end.

Definition parseSessionFile (file : Fs.SessionFile)
  (sessionId projectPath format : string) (includeToolCalls : bool)
  (limit offset : Z) : Except Session.t :=
  let v := fold_left parseStep (Fs.lines file) ParseVars.init in
  match ParseVars.startedAt v with
  | Some startedAt =>
      if Js.truthy startedAt then
        let allMessages := ParseVars.allMessages v in
        let total := Z.of_nat (List.length allMessages) in
        let paginatedMessages := Js.slice allMessages offset (offset + limit) in
        let hasMore := offset + limit <? total in
        let formattedMessages :=
          if ((format =? "markdown") || (format =? "json"))%string then
            let legacyMessages :=
              filter (keepLegacy includeToolCalls)
                     (map legacyMessage paginatedMessages) in
            if (format =? "markdown")%string
            then DataMarkdown
                   (Js.join Js.newline
                      (markdownHead sessionId projectPath v startedAt
                       ++ flat_map markdownMessage legacyMessages))
            else DataJson legacyMessages
          else if (format =? "full")%string then
            DataFull
              (map (fun msg =>
                      {| FullMessage.role := ParsedMessage.role msg;
                         FullMessage.timestamp := ParsedMessage.timestamp msg;
                         FullMessage.content := ParsedMessage.rawContent msg |})
                   paginatedMessages)
          else if (format =? "standard")%string then
            DataStandard
              (map (fun msg =>
                      let textContent :=
                        extractContentText (ParsedMessage.rawContent msg) in
                      {| StandardMessage.role := ParsedMessage.role msg;
                         StandardMessage.timestamp :=
                           ParsedMessage.timestamp msg;
                         StandardMessage.text :=
                           Js.orUndefined (Some textContent);
                         StandardMessage.toolCalls :=
                           toolCallNames (ParsedMessage.rawContent msg) |})
                   paginatedMessages)
          else if (format =? "minimal")%string then
            DataMinimal
              (map (fun msg =>
                      let textContent :=
                        extractContentText (ParsedMessage.rawContent msg) in
                      {| MinimalMessage.role := ParsedMessage.role msg;
                         MinimalMessage.timestamp :=
                           ParsedMessage.timestamp msg;
                         MinimalMessage.contentLength := Js.len textContent;
                         MinimalMessage.toolCalls :=
                           toolCallNames (ParsedMessage.rawContent msg) |})
                   paginatedMessages)
          else DataRaw paginatedMessages in
        Return {| Session.sessionId := sessionId;
                  Session.project := projectPath;
                  Session.summary := Js.orUndefined (ParseVars.summary v);
                  Session.gitBranch := Js.orUndefined (ParseVars.gitBranch v);
                  Session.startedAt := startedAt;
                  Session.lastActivityAt :=
                    Js.orElse (ParseVars.lastActivityAt v) startedAt;
                  Session.data := formattedMessages;
                  Session.total := total;
                  Session.hasMore := hasMore |}
      else Throw "Invalid session file: no timestamps found"
  | None => Throw "Invalid session file: no timestamps found"
  end.

(** The options of [getSession], after the defaults of its
    destructuring. *)
Module GetSessionOptions.
Record t := {
  sessionId : string;
  format : option string;
  includeToolCalls : option bool;
  limit : option Z;
  offset : option Z
}.
End GetSessionOptions.

Definition orDefault {A : Type} (o : option A) (d : A) : A :=
  match o with Some x => x | None => d end.

(** The loop of [getSession] over the project directories: the [catch]
    around [stat] and [parseSessionFile] continues with the next one. *)
Fixpoint getSessionIn (dirs : list Fs.ProjectDir) (sessionId format : string)
  (includeToolCalls : bool) (limit offset : Z) : Except Session.t :=
  match dirs with
  | [] => Throw ("Session " ++ sessionId ++ " not found")
  | projectDir :: rest =>
      match Fs.stat projectDir sessionId with
      | None => getSessionIn rest sessionId format includeToolCalls limit offset
      | Some file =>
          match parseSessionFile file sessionId (Fs.projectPath projectDir)
                                 format includeToolCalls limit offset with
          | Return session => Return session
          | Throw _ =>
              getSessionIn rest sessionId format includeToolCalls limit offset
          end
      end
  end.

Definition getSession (root : Fs.Root) (options : GetSessionOptions.t)
  : Except Session.t :=
  let sessionId := GetSessionOptions.sessionId options in
  let format := orDefault (GetSessionOptions.format options) "standard" in
  let includeToolCalls :=
    orDefault (GetSessionOptions.includeToolCalls options) false in
  let limit := orDefault (GetSessionOptions.limit options) 50 in
  let offset := orDefault (GetSessionOptions.offset options) 0 in
  match root with
  | Fs.Unreadable error => Throw error
  | Fs.Projects projectDirs =>
      getSessionIn projectDirs sessionId format includeToolCalls limit offset
  end.

(** [session.data as SessionMessage_Output[]] for the format [json]. *)
Definition legacyData (data : SessionData) : list SessionMessage_Output.t :=
  match data with
  | DataJson messages => messages
  | _ => []
  end.

(** The body of the [try] of [getSessionSummary] for one session file. *)
Definition summarize (file : Fs.SessionFile) (sessionId projectPath : string)
  : Except SessionSummary.t :=
  match getSessionInfo file sessionId projectPath with
  | None => Throw "Failed to parse session"
  | Some info =>
      let result (summaryText : string) :=
        {| SessionSummary.sessionId := sessionId;
           SessionSummary.summary := summaryText;
           SessionSummary.project := SessionInfo.project info;
           SessionSummary.messageCount := SessionInfo.messageCount info;
           SessionSummary.startedAt := SessionInfo.startedAt info;
           SessionSummary.lastActivityAt := SessionInfo.lastActivityAt info |} in
      if Js.truthyOpt (SessionInfo.summary info)
      then Return (result (Js.orElse (SessionInfo.summary info) ""))
      else
        match parseSessionFile file sessionId projectPath "json" false 1 0 with
        | Throw error => Throw error
        | Return session =>
            let firstUserMessage :=
              find (fun m => (SessionMessage_Output.role m =? "user")%string)
                   (legacyData (Session.data session)) in
            Return
              (result
                 (Js.orElse
                    (option_map
                       (fun m =>
                          Js.substring (SessionMessage_Output.content m) 0 200)
                       firstUserMessage)
                    "No summary available"))
        end
  end.

Fixpoint getSessionSummaryIn (dirs : list Fs.ProjectDir) (sessionId : string)
  : Except SessionSummary.t :=
  match dirs with
  | [] => Throw ("Session " ++ sessionId ++ " not found")
  | projectDir :: rest =>
      match Fs.stat projectDir sessionId with
      | None => getSessionSummaryIn rest sessionId
      | Some file =>
          match summarize file sessionId (Fs.projectPath projectDir) with
          | Return result => Return result
          | Throw _ => getSessionSummaryIn rest sessionId
          end
      end
  end.

Definition getSessionSummary (root : Fs.Root) (sessionId : string)
  : Except SessionSummary.t :=
  match root with
  | Fs.Unreadable error => Throw error
  | Fs.Projects projectDirs => getSessionSummaryIn projectDirs sessionId
  end.

(** The options of [listSessions]. *)
Module ListOptions.
Record t := {
  project : option string;
  since : option string;
  until : option string;
  sortBy : option string;
  sortOrder : option string;
  limit : option Z
}.
End ListOptions.

(** The result of [listSessions]. *)
Module SessionList.
Record t := {
  sessions : list SessionInfo.t;
  total : Z
}.
End SessionList.

Section Dates.

(** [new Date(s).getTime()], NaN for a string that is not a date. *)
Variable getTime : string -> Js.num.

(** [new Date().getTime()] at the call. *)
Variable now : Z.

(** [since ? new Date(since) : new Date(0)]. *)
Definition sinceDate (since : option string) : Js.num :=
  if Js.truthyOpt since then getTime (Js.orElse since "") else Some 0.

(** [until ? new Date(until) : new Date()]. *)
Definition untilDate (until : option string) : Js.num :=
  if Js.truthyOpt until then getTime (Js.orElse until "") else Some now.

(** [project && !projectPath.includes(project)]. *)
Definition skipProject (project : option string) (d : Fs.ProjectDir) : bool :=
  (Js.truthyOpt project
   && negb (Js.includes (Fs.projectPath d) (Js.orElse project "")))%bool.

(** The loop of [listSessions] over the files of one project directory;
    [break] leaves it once [limit * 10] sessions are held. *)
Fixpoint listFiles (options : ListOptions.t) (projectPath : string)
  (files : list (string * Fs.SessionFile)) (sessions : list SessionInfo.t)
  : list SessionInfo.t :=
  match files with
  | [] => sessions
  | (file, f) :: rest =>
      if Fs.notASession file then listFiles options projectPath rest sessions
      else
        match getSessionInfo f (Fs.sessionIdOf file) projectPath with
        | None => listFiles options projectPath rest sessions
        | Some sessionInfo =>
            let sessionDate := getTime (SessionInfo.startedAt sessionInfo) in
            if (Js.lt sessionDate (sinceDate (ListOptions.since options))
                || Js.gt sessionDate (untilDate (ListOptions.until options)))%bool
            then listFiles options projectPath rest sessions
            else
              let sessions' :=
                (sessions ++ [SessionInfo.withSize sessionInfo (Fs.size f)])%list in
              if Z.of_nat (List.length sessions')
                 >=? orDefault (ListOptions.limit options) 50 * 10
              then sessions'
              else listFiles options projectPath rest sessions'
        end
  end.

(** The loop over the project directories; [readdir] of a project
    directory is outside every [try]. *)
Fixpoint listDirs (options : ListOptions.t) (dirs : list Fs.ProjectDir)
  (sessions : list SessionInfo.t) : Except (list SessionInfo.t) :=
  match dirs with
  | [] => Return sessions
  | projectDir :: rest =>
      if skipProject (ListOptions.project options) projectDir
      then listDirs options rest sessions
      else
        match Fs.listing projectDir with
        | Fs.NotListable error => Throw error
        | Fs.Entries files =>
            listDirs options rest
              (listFiles options (Fs.projectPath projectDir) files sessions)
        end
  end.

(** The comparator handed to [sessions.sort]. *)
Definition compareSessions (options : ListOptions.t) (a b : SessionInfo.t)
  : Js.num :=
  let comparison :=
    if (orDefault (ListOptions.sortBy options) "date" =? "date")%string
    then Js.sub (getTime (SessionInfo.startedAt a))
                (getTime (SessionInfo.startedAt b))
    else Some (SessionInfo.sizeBytes a - SessionInfo.sizeBytes b) in
  if (orDefault (ListOptions.sortOrder options) "desc" =? "desc")%string
  then Js.neg comparison else comparison.

Definition listSessions (root : Fs.Root) (options : ListOptions.t)
  : Except SessionList.t :=
  match root with
  | Fs.Unreadable error => Throw error
  | Fs.Projects projectDirs =>
      match listDirs options projectDirs [] with
      | Throw error => Throw error
      | Return sessions =>
          let sorted := Js.sort (compareSessions options) sessions in
          Return {| SessionList.sessions :=
                      Js.slice sorted 0 (orDefault (ListOptions.limit options) 50);
                    SessionList.total := Z.of_nat (List.length sorted) |}
      end
  end.

End Dates.

End SessionParser.

(** ** [tools/get-session.ts], [tools/get-session-summary.ts] and
    [tools/list-sessions.ts] *)

Module GetSession.
Import Types.

(** The argument bag of the handler; [sessionId] is [None] when it is
    absent or not a string. *)
Record Args := {
  sessionId : option string;
  format : option string;
  includeToolCalls : option bool;
  limit : option Z;
  offset : option Z
}.

(** [Math.min(Math.max(1, limit), 200)]. *)
Definition validatedLimit (limit : Z) : Z := Z.min (Z.max 1 limit) 200.

(** [Math.max(0, offset)]. *)
Definition validatedOffset (offset : Z) : Z := Z.max 0 offset.

Definition getSessionHandler (root : Fs.Root) (args : Args)
  : ToolResult Session.t :=
  let limit := SessionParser.orDefault (limit args) 50 in
  let offset := SessionParser.orDefault (offset args) 0 in
  if negb (Js.truthyOpt (sessionId args))
  then errorResponse "sessionId parameter is required and must be a string"
  else
    respond
      (SessionParser.getSession root
         {| SessionParser.GetSessionOptions.sessionId :=
              Js.orElse (sessionId args) "";
            SessionParser.GetSessionOptions.format := format args;
            SessionParser.GetSessionOptions.includeToolCalls :=
              includeToolCalls args;
            SessionParser.GetSessionOptions.limit :=
              Some (validatedLimit limit);
            SessionParser.GetSessionOptions.offset :=
              Some (validatedOffset offset) |}).

End GetSession.

Module GetSessionSummary.
Import Types.

Definition getSessionSummaryHandler (root : Fs.Root)
  (sessionId : option string) : ToolResult SessionSummary.t :=
  if negb (Js.truthyOpt sessionId)
  then errorResponse "sessionId parameter is required and must be a string"
  else respond (SessionParser.getSessionSummary root (Js.orElse sessionId "")).

End GetSessionSummary.

Module ListSessions.
Import Types.

Definition listSessionsHandler (getTime : string -> Js.num) (now : Z)
  (root : Fs.Root) (args : SessionParser.ListOptions.t)
  : ToolResult SessionParser.SessionList.t :=
  respond (SessionParser.listSessions getTime now root args).

End ListSessions.

(** ** [tools/search-session-content.ts] *)

Module SearchSessionContent.
Import Types.

Record Args := {
  query : option string;
  project : option string;
  role : option string;
  since : option string;
  until : option string;
  limit : option Z
}.

Module ContentSearchResult.
Record t := {
  sessionId : string;
  project : string;
  role : string;
  content : string;
  timestamp : string;
  matchContext : string
}.
End ContentSearchResult.

(** The payload of the success envelope. *)
Module Found.
Record t := {
  results : list ContentSearchResult.t;
  total : Z;
  query : string
}.
End Found.

Definition itemText (item : Item) : string :=
  match item with
  | ItemString s => s
  | ItemBlock b =>
      if (hasType b "text" && Js.truthyOpt (text b))%bool
      then Js.orElse (text b) ""
      else ""
  end.

Definition extractContentText (content : Content) : string :=
  match content with
  | ContentString s => s
  | ContentArray items =>
      Js.join Js.newline (filter Js.truthy (map itemText items))
  | ContentOther => ""
  end.

Definition getMatchContext (content query : string) (contextLength : Z)
  : string :=
  let lowerContent := Js.toLowerCase content in
  let lowerQuery := Js.toLowerCase query in
  let matchIndex := Js.indexOf lowerContent lowerQuery in
  if matchIndex =? -1 then Js.substring content 0 200
  else
    let start := Z.max 0 (matchIndex - contextLength) in
    let end_ := Z.min (Js.len content)
                      (matchIndex + Js.len query + contextLength) in
    let context := Js.substring content start end_ in
    let context := if start >? 0 then "..." ++ context else context in
    if end_ <? Js.len content then context ++ "..." else context.

Section Handler.

Variable getTime : string -> Js.num.
Variable now : Z.

(** What follows [JSON.parse] in the loop over the lines: the record is
    tested and a matching message is pushed on [results]. *)
Definition searchMessage (args : Args) (sessionId projectPath : string)
  (msg : SessionMessage.t) (results : list ContentSearchResult.t)
  : list ContentSearchResult.t :=
  let query := Js.orElse (query args) "" in
  let role := SessionParser.orDefault (role args) "both" in
  if negb (SessionMessage.isUserOrAssistant msg) then results
  else if (negb (role =? "both")%string
           && negb (SessionMessage.type msg =? role)%string)%bool then results
  else if (Js.truthyOpt (SessionMessage.timestamp msg)
           && (Js.lt (getTime (Js.orElse (SessionMessage.timestamp msg) ""))
                     (SessionParser.sinceDate getTime (since args))
               || Js.gt (getTime (Js.orElse (SessionMessage.timestamp msg) ""))
                        (SessionParser.untilDate getTime now (until args))))%bool
  then results
  else
    match SessionMessage.message msg with
    | None => results
    | Some m =>
        let contentText := extractContentText (content m) in
        if Js.includes (Js.toLowerCase contentText) (Js.toLowerCase query)
        then (results ++
              [ {| ContentSearchResult.sessionId := sessionId;
                   ContentSearchResult.project := projectPath;
                   ContentSearchResult.role := SessionMessage.type msg;
                   ContentSearchResult.content :=
                     Js.substring contentText 0 500;
                   ContentSearchResult.timestamp :=
                     Js.orElse (SessionMessage.timestamp msg) "";
                   ContentSearchResult.matchContext :=
                     getMatchContext contentText query 100 |} ])%list
        else results
    end.

Definition count {A : Type} (l : list A) : Z := Z.of_nat (List.length l).

(** The loop over the lines of one file; a blank line is passed over
    before [if (results.length >= limit) break]. *)
Fixpoint searchLines (args : Args) (sessionId projectPath : string)
  (lines : list Fs.Line) (results : list ContentSearchResult.t)
  : list ContentSearchResult.t :=
  match lines with
  | [] => results
  | Fs.BlankLine :: rest => searchLines args sessionId projectPath rest results
  | line :: rest =>
      if count results >=? SessionParser.orDefault (limit args) 20
      then results
      else
        match line with
        | Fs.JsonLine msg =>
            searchLines args sessionId projectPath rest
              (searchMessage args sessionId projectPath msg results)
        | _ => searchLines args sessionId projectPath rest results
        end
  end.

(** The loop over the files of one project directory. *)
Fixpoint searchFiles (args : Args) (projectPath : string)
  (files : list (string * Fs.SessionFile))
  (results : list ContentSearchResult.t) : list ContentSearchResult.t :=
  match files with
  | [] => results
  | (file, f) :: rest =>
      if Fs.notASession file then searchFiles args projectPath rest results
      else
        let results' :=
          searchLines args (Fs.sessionIdOf file) projectPath (Fs.lines f)
                      results in
        if count results' >=? SessionParser.orDefault (limit args) 20
        then results'
        else searchFiles args projectPath rest results'
  end.

(** The loop over the project directories. *)
Fixpoint searchDirs (args : Args) (dirs : list Fs.ProjectDir)
  (results : list ContentSearchResult.t) : list ContentSearchResult.t :=
  match dirs with
  | [] => results
  | projectDir :: rest =>
      if SessionParser.skipProject (project args) projectDir
      then searchDirs args rest results
      else
        match Fs.listing projectDir with
        | Fs.NotListable _ => searchDirs args rest results
        | Fs.Entries files =>
            let results' :=
              searchFiles args (Fs.projectPath projectDir) files results in
            if count results' >=? SessionParser.orDefault (limit args) 20
            then results'
            else searchDirs args rest results'
        end
  end.

(** [(a, b) => new Date(b.timestamp).getTime()
               - new Date(a.timestamp).getTime()]. *)
Definition newestFirst (a b : ContentSearchResult.t) : Js.num :=
  Js.sub (getTime (ContentSearchResult.timestamp b))
         (getTime (ContentSearchResult.timestamp a)).


Definition searchSessionContentHandler (root : Fs.Root) (args : Args)
  : ToolResult Found.t :=
  if negb (Js.truthyOpt (query args))
  then errorResponse "query parameter is required and must be a string"
  else
    match root with
    | Fs.Unreadable _ =>
        errorResponse "Could not read Claude projects directory"
    | Fs.Projects projectDirs =>
        let results := Js.sort newestFirst (searchDirs args projectDirs []) in
        successResponse
          {| Found.results :=
               Js.slice results 0 (SessionParser.orDefault (limit args) 20);
             Found.total := count results;
             Found.query := Js.orElse (query args) "" |}
    end.

End Handler.

End SearchSessionContent.

(** ** [tools/find-sessions-by-branch.ts] *)

Module FindSessionsByBranch.
Import Types.

Record Args := {
  branch : option string;
  project : option string;
  exactMatch : option bool;
  limit : option Z
}.

Module BranchSessionResult.
Record t := {
  sessionId : string;
  project : string;
  summary : option string;
  gitBranch : string;
  messageCount : Z;
  startedAt : string;
  lastActivityAt : string;
  sizeBytes : Z
}.
End BranchSessionResult.

(** The payload of the success envelope. *)
Module Found.
Record t := {
  results : list BranchSessionResult.t;
  total : Z;
  searchedBranch : string;
  exactMatch : bool
}.
End Found.

(** [exactMatch ? gitBranch.toLowerCase() === branchLower
               : gitBranch.toLowerCase().includes(branchLower)]. *)
Definition branchMatches (exactMatch : bool) (gitBranch branchLower : string)
  : bool :=
  if exactMatch then (Js.toLowerCase gitBranch =? branchLower)%string
  else Js.includes (Js.toLowerCase gitBranch) branchLower.

(** The body of the [try] for one session file: its loop over the lines
    has the statements of the loop of [getSessionInfo], and the row is
    built under [if (gitBranch && startedAt)] and [if (branchMatches)]. *)
Definition scanFile (args : Args) (sessionId projectPath : string)
  (f : Fs.SessionFile) : option BranchSessionResult.t :=
  let branchLower := Js.toLowerCase (Js.orElse (branch args) "") in
  let v := fold_left SessionParser.infoStep (Fs.lines f) InfoVars.init in
  if (Js.truthyOpt (InfoVars.gitBranch v)
      && Js.truthyOpt (InfoVars.startedAt v))%bool
  then
    let gitBranch := Js.orElse (InfoVars.gitBranch v) "" in
    let startedAt := Js.orElse (InfoVars.startedAt v) "" in
    if branchMatches (SessionParser.orDefault (exactMatch args) false)
                     gitBranch branchLower
    then Some {| BranchSessionResult.sessionId := sessionId;
                 BranchSessionResult.project := projectPath;
                 BranchSessionResult.summary :=
                   Js.orUndefined (InfoVars.summary v);
                 BranchSessionResult.gitBranch := gitBranch;
                 BranchSessionResult.messageCount := InfoVars.messageCount v;
                 BranchSessionResult.startedAt := startedAt;
                 BranchSessionResult.lastActivityAt :=
                   Js.orElse (InfoVars.lastActivityAt v) startedAt;
                 BranchSessionResult.sizeBytes := Fs.size f |}
    else None
  else None.

Definition push {A : Type} (l : list A) (o : option A) : list A :=
  match o with Some x => (l ++ [x])%list | None => l end.

Definition count {A : Type} (l : list A) : Z := Z.of_nat (List.length l).

(** The loop over the files of one project directory; [break] leaves it
    once [limit * 2] rows are held. *)
Fixpoint scanFiles (args : Args) (projectPath : string)
  (files : list (string * Fs.SessionFile))
  (results : list BranchSessionResult.t) : list BranchSessionResult.t :=
  match files with
  | [] => results
  | (file, f) :: rest =>
      if Fs.notASession file then scanFiles args projectPath rest results
      else
        let results' :=
          push results (scanFile args (Fs.sessionIdOf file) projectPath f) in
        if count results' >=? SessionParser.orDefault (limit args) 20 * 2
        then results'
        else scanFiles args projectPath rest results'
  end.

(** The loop over the project directories: nothing leaves it early. *)
Fixpoint scanDirs (args : Args) (dirs : list Fs.ProjectDir)
  (results : list BranchSessionResult.t) : list BranchSessionResult.t :=
  match dirs with
  | [] => results
  | projectDir :: rest =>
      if SessionParser.skipProject (project args) projectDir
      then scanDirs args rest results
      else
        match Fs.listing projectDir with
        | Fs.NotListable _ => scanDirs args rest results
        | Fs.Entries files =>
            scanDirs args rest
              (scanFiles args (Fs.projectPath projectDir) files results)
        end
  end.



Section Handler.

Variable getTime : string -> Js.num.

(** [(a, b) => new Date(b.startedAt).getTime()
               - new Date(a.startedAt).getTime()]. *)
Definition newestFirst (a b : BranchSessionResult.t) : Js.num :=
  Js.sub (getTime (BranchSessionResult.startedAt b))
         (getTime (BranchSessionResult.startedAt a)).

Definition findSessionsByBranchHandler (root : Fs.Root) (args : Args)
  : ToolResult Found.t :=
  if negb (Js.truthyOpt (branch args))
  then errorResponse "branch parameter is required and must be a string"
  else
    match root with
    | Fs.Unreadable _ =>
        errorResponse "Could not read Claude projects directory"
    | Fs.Projects projectDirs =>
        let results := Js.sort newestFirst (scanDirs args projectDirs []) in
        successResponse
          {| Found.results :=
               Js.slice results 0 (SessionParser.orDefault (limit args) 20);
             Found.total := count results;
             Found.searchedBranch := Js.orElse (branch args) "";
             Found.exactMatch :=
               SessionParser.orDefault (exactMatch args) false |}
    end.

End Handler.

End FindSessionsByBranch.

(** ** [tools/get-agent-activity.ts] *)

(** A [Record<string, number>] filled by [m[k] = (m[k] || 0) + 1]: the
    keys stay in the order of their first insertion. *)
Module Counts.
Definition t := list (string * Z).

Fixpoint bump (m : t) (k : string) : t :=
  match m with
  | [] => [(k, 1)]
  | (k', n) :: rest =>
      if (k' =? k)%string then (k', n + 1) :: rest
      else (k', n) :: bump rest k
  end.

(** [Object.keys(m)]. *)
Definition keys (m : t) : list string := map fst m.

(** [Object.values(m).reduce((a, b) => a + b, 0)]. *)
Definition sum (m : t) : Z := fold_left (fun a kv => a + snd kv) m 0.

(** [new Set(keys).has(k)]. *)
Definition has (ks : list string) (k : string) : bool :=
  existsb (fun k' => (k' =? k)%string) ks.
End Counts.

Module GetAgentActivity.
Import Types.

Record Args := {
  sessionId : option string;
  limit : option Z;
  offset : option Z
}.

Module AgentSpawn.
Record t := {
  subagentType : string;
  description : string;
  timestamp : string;
  prompt : option string
}.
End AgentSpawn.

Module AgentActivityResult.
Record t := {
  sessionId : string;
  project : string;
  summary : option string;
  data : list AgentSpawn.t;
  total : Z;
  hasMore : bool;
  uniqueAgentTypes : list string;
  agentTypeCounts : Counts.t
}.
End AgentActivityResult.

(** The body of the loop of [extractAgentSpawns] for one item. *)
Definition spawnOf (timestamp : string) (item : Item) : list AgentSpawn.t :=
  match item with
  | ItemString _ => []
  | ItemBlock b =>
      if (hasType b "tool_use"
          && match name b with Some n => (n =? "Task")%string | None => false end)%bool
      then
        let input := SessionParser.orDefault (input b) emptyInput in
        [ {| AgentSpawn.subagentType :=
               Js.orElse (subagent_type input) "unknown";
             AgentSpawn.description := Js.orElse (Types.description input) "";
             AgentSpawn.timestamp := timestamp;
             AgentSpawn.prompt :=
               if Js.truthyOpt (prompt input)
               then Some (Js.substring (Js.orElse (prompt input) "") 0 200)
               else None |} ]
      else []
  end.

Definition extractAgentSpawns (content : Content) (timestamp : string)
  : list AgentSpawn.t :=
  match content with
  | ContentArray items => flat_map (spawnOf timestamp) items
  | _ => []
  end.

(** The body of the loop over the lines, on [agentSpawns] and [summary]. *)
Definition step (v : list AgentSpawn.t * option string) (line : Fs.Line)
  : list AgentSpawn.t * option string :=
  match line with
  | Fs.JsonLine msg =>
      let summary := Vars.lastSummary (snd v) msg in
      let agentSpawns :=
        match SessionMessage.message msg with
        | Some m =>
            if (SessionMessage.type msg =? "assistant")%string
            then (fst v ++
                  extractAgentSpawns (content m)
                    (Js.orElse (SessionMessage.timestamp msg) ""))%list
            else fst v
        | None => fst v
        end in
      (agentSpawns, summary)
  | _ => v
  end.

(** [Math.min(Math.max(1, limit), 100)]. *)
Definition validatedLimit (limit : Z) : Z := Z.min (Z.max 1 limit) 100.

(** [Math.max(0, offset)]. *)
Definition validatedOffset (offset : Z) : Z := Z.max 0 offset.




End GetAgentActivity.

(** ** [tools/get-session-timeline.ts] *)

Module GetSessionTimeline.
Import Types.

Record Args := {
  sessionId : option string;
  includeContent : option bool;
  format : option string;
  limit : option Z;
  offset : option Z
}.

Module TimelineEvent.
Record t := {
  timestamp : string;
  type : string;
  details : option string;
  content : option string
}.
End TimelineEvent.

(** The [let] variables of the loop over the lines. *)
Module TimelineVars.
Record t := {
  timeline : list TimelineEvent.t;
  summary : option string;
  gitBranch : option string;
  startedAt : option string;
  endedAt : option string;
  userMessages : Z;
  assistantMessages : Z;
  toolCallCount : Z;
  agentSpawnCount : Z
}.

Definition init : t :=
  {| timeline := []; summary := None; gitBranch := None; startedAt := None;
     endedAt := None; userMessages := 0; assistantMessages := 0;
     toolCallCount := 0; agentSpawnCount := 0 |}.
End TimelineVars.

(** The [data] field: the page of events, or the counts per kind. *)
Inductive TimelineData :=
| Events (events : list TimelineEvent.t)
| EventCounts (counts : Counts.t).

Module SessionTimeline.
Record t := {
  sessionId : string;
  project : string;
  summary : option string;
  gitBranch : option string;
  duration : string;
  startedAt : string;
  endedAt : string;
  eventCount : Z;
  messageCount : Z * Z;              (* [{ user, assistant }] *)
  toolCallCount : Z;
  agentSpawnCount : Z;
  data : TimelineData;
  total : Z;
  hasMore : bool
}.
End SessionTimeline.

(** [{ name: item.name, input: item.input || {} }]. *)
Definition toolCallOf (item : Item) : ToolCall.t :=
  match item with
  | ItemString _ =>
      {| ToolCall.name := None; ToolCall.input := Some emptyInput |}
  | ItemBlock b =>
      {| ToolCall.name := name b;
         ToolCall.input := Some (SessionParser.orDefault (input b) emptyInput) |}
  end.

Definition extractToolCalls (content : Content) : list ToolCall.t :=
  match content with
  | ContentArray items => map toolCallOf (filter SessionParser.isToolUse items)
  | _ => []
  end.

(** [item => item.type === 'text' && item.text]. *)
Definition isText (item : Item) : bool :=
  match item with
  | ItemString _ => false
  | ItemBlock b => (hasType b "text" && Js.truthyOpt (text b))%bool
  end.

Definition textOf (item : Item) : string :=
  match item with
  | ItemString _ => ""
  | ItemBlock b => Js.orElse (text b) ""
  end.

Definition extractTextContent (content : Content) : string :=
  match content with
  | ContentString s => s
  | ContentArray items =>
      Js.substring (Js.join " " (map textOf (filter isText items))) 0 150
  | ContentOther => ""
  end.

Definition formatDuration (ms : Js.num) : string :=
  match ms with
  | None => "NaNs"
  | Some ms =>
      let seconds := ms / 1000 in
      let minutes := seconds / 60 in
      let hours := minutes / 60 in
      if hours >? 0
      then Js.showZ hours ++ "h " ++ Js.showZ (Z.rem minutes 60) ++ "m"
      else if minutes >? 0
      then Js.showZ minutes ++ "m " ++ Js.showZ (Z.rem seconds 60) ++ "s"
      else Js.showZ seconds ++ "s"
  end.

Definition nameIs (tool : ToolCall.t) (n : string) : bool :=
  match ToolCall.name tool with Some s => (s =? n)%string | None => false end.

Definition inputOf (tool : ToolCall.t) : ToolInput :=
  SessionParser.orDefault (ToolCall.input tool) emptyInput.

(** The text of [toolDetails] for a tool call that is not a [Task]. *)
Definition toolDetails (tool : ToolCall.t) : option string :=
  let input := inputOf tool in
  if (nameIs tool "Read" && Js.truthyOpt (file_path input))%bool
  then Some ("Read: " ++ Js.lastSegment (Js.orElse (file_path input) ""))
  else if (nameIs tool "Write" && Js.truthyOpt (file_path input))%bool
  then Some ("Write: " ++ Js.lastSegment (Js.orElse (file_path input) ""))
  else if (nameIs tool "Edit" && Js.truthyOpt (file_path input))%bool
  then Some ("Edit: " ++ Js.lastSegment (Js.orElse (file_path input) ""))
  else if (nameIs tool "Bash" && Js.truthyOpt (command input))%bool
  then Some ("Bash: " ++ Js.substring (Js.orElse (command input) "") 0 50)
  else ToolCall.name tool.

(** The event pushed for one tool call of an assistant record. *)
Definition toolEvent (timestamp : string) (tool : ToolCall.t)
  : TimelineEvent.t :=
  if nameIs tool "Task"
  then {| TimelineEvent.timestamp := timestamp;
          TimelineEvent.type := "agent_spawn";
          TimelineEvent.details :=
            Some ("Spawned "
                  ++ Js.orElse (subagent_type (inputOf tool)) "unknown"
                  ++ ": " ++ Js.orElse (description (inputOf tool)) "");
          TimelineEvent.content := None |}
  else {| TimelineEvent.timestamp := timestamp;
          TimelineEvent.type := "tool_call";
          TimelineEvent.details := toolDetails tool;
          TimelineEvent.content := None |}.

(** The events that one user or assistant record pushes on [timeline]. *)
Definition eventsOf (includeContent : bool) (msg : SessionMessage.t)
  : list TimelineEvent.t :=
  let timestamp := Js.orElse (SessionMessage.timestamp msg) "" in
  match SessionMessage.message msg with
  | None => []
  | Some m =>
      let textContent := extractTextContent (content m) in
      if (SessionMessage.type msg =? "user")%string then
        [ {| TimelineEvent.timestamp := timestamp;
             TimelineEvent.type := "user_message";
             TimelineEvent.details :=
               Some ("User message (" ++ Js.showZ (Js.len textContent)
                     ++ " chars)");
             TimelineEvent.content :=
               if includeContent then Some textContent else None |} ]
      else if (SessionMessage.type msg =? "assistant")%string then
        List.app
          (if Js.truthy textContent
           then [ {| TimelineEvent.timestamp := timestamp;
                     TimelineEvent.type := "assistant_message";
                     TimelineEvent.details :=
                       Some ("Assistant response ("
                             ++ Js.showZ (Js.len textContent) ++ " chars)");
                     TimelineEvent.content :=
                       if includeContent then Some textContent else None |} ]
           else [])
          (map (toolEvent timestamp) (extractToolCalls (content m)))
      else []
  end.

(** The tool calls of an assistant record that carries a message. *)
Definition toolCallsOf (msg : SessionMessage.t) : list ToolCall.t :=
  match SessionMessage.message msg with
  | Some m =>
      if (SessionMessage.type msg =? "assistant")%string
      then extractToolCalls (content m) else []
  | None => []
  end.

Definition isKind (kind : string) (msg : SessionMessage.t) : Z :=
  match SessionMessage.message msg with
  | Some _ => if (SessionMessage.type msg =? kind)%string then 1 else 0
  | None => 0
  end.

(** The body of the loop over the lines; a summary record ends its
    iteration with [continue] before its timestamp is looked at. *)
Definition step (includeContent : bool) (v : TimelineVars.t) (line : Fs.Line)
  : TimelineVars.t :=
  match line with
  | Fs.JsonLine msg =>
      if SessionMessage.isSummary msg
      then {| TimelineVars.timeline := TimelineVars.timeline v;
              TimelineVars.summary := SessionMessage.summary msg;
              TimelineVars.gitBranch := TimelineVars.gitBranch v;
              TimelineVars.startedAt := TimelineVars.startedAt v;
              TimelineVars.endedAt := TimelineVars.endedAt v;
              TimelineVars.userMessages := TimelineVars.userMessages v;
              TimelineVars.assistantMessages :=
                TimelineVars.assistantMessages v;
              TimelineVars.toolCallCount := TimelineVars.toolCallCount v;
              TimelineVars.agentSpawnCount := TimelineVars.agentSpawnCount v |}
      else
        let toolCalls := toolCallsOf msg in
        let spawns := filter (fun t => nameIs t "Task") toolCalls in
        let others := filter (fun t => negb (nameIs t "Task")) toolCalls in
        {| TimelineVars.timeline :=
             (TimelineVars.timeline v ++ eventsOf includeContent msg)%list;
           TimelineVars.summary := TimelineVars.summary v;
           TimelineVars.gitBranch :=
             Vars.firstBranch (TimelineVars.gitBranch v)
                              (SessionMessage.gitBranch msg);
           TimelineVars.startedAt :=
             Vars.stampStart (TimelineVars.startedAt v)
                             (SessionMessage.timestamp msg);
           TimelineVars.endedAt :=
             Vars.stampLast (TimelineVars.endedAt v)
                            (SessionMessage.timestamp msg);
           TimelineVars.userMessages :=
             TimelineVars.userMessages v + isKind "user" msg;
           TimelineVars.assistantMessages :=
             TimelineVars.assistantMessages v + isKind "assistant" msg;
           TimelineVars.toolCallCount :=
             TimelineVars.toolCallCount v + Z.of_nat (List.length others);
           TimelineVars.agentSpawnCount :=
             TimelineVars.agentSpawnCount v + Z.of_nat (List.length spawns) |}
  | _ => v
  end.

(** [Math.min(Math.max(1, limit), 200)]. *)
Definition validatedLimit (limit : Z) : Z := Z.min (Z.max 1 limit) 200.

(** [Math.max(0, offset)]. *)
Definition validatedOffset (offset : Z) : Z := Z.max 0 offset.

Section Handler.

Variable getTime : string -> Js.num.

(** What the handler returns for the first session file it finds. *)
Definition timelineOf (f : Fs.SessionFile) (sessionId projectPath : string)
  (includeContent : bool) (format : string)
  (validatedLimit validatedOffset : Z) : ToolResult SessionTimeline.t :=
  let v := fold_left (step includeContent) (Fs.lines f) TimelineVars.init in
  if negb (Js.truthyOpt (TimelineVars.startedAt v))
  then errorResponse "Invalid session file: no timestamps found"
  else
    let startedAt := Js.orElse (TimelineVars.startedAt v) "" in
    let durationMs :=
      if Js.truthyOpt (TimelineVars.endedAt v)
      then Js.sub (getTime (Js.orElse (TimelineVars.endedAt v) ""))
                  (getTime startedAt)
      else Some 0 in
    let timeline := TimelineVars.timeline v in
    let total := Z.of_nat (List.length timeline) in
    let paginatedTimeline :=
      Js.slice timeline validatedOffset (validatedOffset + validatedLimit) in
    let hasMore := validatedOffset + validatedLimit <? total in
    let formattedData :=
      if (format =? "minimal")%string
      then EventCounts
             (fold_left (fun m event => Counts.bump m (TimelineEvent.type event))
                        timeline [])
      else Events paginatedTimeline in
    successResponse
      {| SessionTimeline.sessionId := sessionId;
         SessionTimeline.project := projectPath;
         SessionTimeline.summary := TimelineVars.summary v;
         SessionTimeline.gitBranch := TimelineVars.gitBranch v;
         SessionTimeline.duration := formatDuration durationMs;
         SessionTimeline.startedAt := startedAt;
         SessionTimeline.endedAt :=
           Js.orElse (TimelineVars.endedAt v) startedAt;
         SessionTimeline.eventCount := total;
         SessionTimeline.messageCount :=
           (TimelineVars.userMessages v, TimelineVars.assistantMessages v);
         SessionTimeline.toolCallCount := TimelineVars.toolCallCount v;
         SessionTimeline.agentSpawnCount := TimelineVars.agentSpawnCount v;
         SessionTimeline.data := formattedData;
         SessionTimeline.total := total;
         SessionTimeline.hasMore :=
           if (format =? "minimal")%string then false else hasMore |}.

Fixpoint timelineIn (dirs : list Fs.ProjectDir) (sessionId : string)
  (includeContent : bool) (format : string)
  (validatedLimit validatedOffset : Z) : ToolResult SessionTimeline.t :=
  match dirs with
  | [] => errorResponse ("Session " ++ sessionId ++ " not found")
  | projectDir :: rest =>
      match Fs.stat projectDir sessionId with
      | None =>
          timelineIn rest sessionId includeContent format
                     validatedLimit validatedOffset
      | Some f =>
          timelineOf f sessionId (Fs.projectPath projectDir) includeContent
                     format validatedLimit validatedOffset
      end
  end.

Definition getSessionTimelineHandler (root : Fs.Root) (args : Args)
  : ToolResult SessionTimeline.t :=
  let includeContent := SessionParser.orDefault (includeContent args) false in
  let format := SessionParser.orDefault (format args) "standard" in
  let limit := SessionParser.orDefault (limit args) 50 in
  let offset := SessionParser.orDefault (offset args) 0 in
  if negb (Js.truthyOpt (sessionId args))
  then errorResponse "sessionId parameter is required and must be a string"
  else
    match root with
    | Fs.Unreadable _ =>
        errorResponse "Could not read Claude projects directory"
    | Fs.Projects projectDirs =>
        timelineIn projectDirs (Js.orElse (sessionId args) "") includeContent
                   format (validatedLimit limit) (validatedOffset offset)
    end.

End Handler.

End GetSessionTimeline.

(** ** [tools/compare-sessions.ts] *)

Module CompareSessions.
Import Types.

Record Args := {
  sessionId1 : option string;
  sessionId2 : option string;
  includeFiles : option bool
}.

(** The [let] and [const] variables of the loop of [getSessionStats]. *)
Module StatsVars.
Record t := {
  summary : option string;
  gitBranch : option string;
  startedAt : option string;
  endedAt : option string;
  userMessages : Z;
  assistantMessages : Z;
  toolsUsed : Counts.t;
  agentSpawns : list (string * string);   (* [{ type, description }] *)
  filesAccessed : list string             (* a [Set], in insertion order *)
}.

Definition init : t :=
  {| summary := None; gitBranch := None; startedAt := None; endedAt := None;
     userMessages := 0; assistantMessages := 0; toolsUsed := [];
     agentSpawns := []; filesAccessed := [] |}.
End StatsVars.

Module SessionStats.
Record t := {
  sessionId : string;
  project : string;
  summary : option string;
  gitBranch : option string;
  startedAt : string;
  endedAt : string;
  durationMs : Js.num;
  durationFormatted : string;
  messageCount : Z * Z * Z;          (* [{ user, assistant, total }] *)
  toolsUsed : Counts.t;
  uniqueToolCount : Z;
  totalToolCalls : Z;
  agentSpawns : list (string * string);
  filesAccessed : option (list string)
}.

Definition totalMessages (s : t) : Z := snd (messageCount s).
End SessionStats.

Module Comparison.
Record t := {
  longerSession : string;
  durationDifference : string;
  moreMessages : string;
  messageDifference : Z;
  moreToolCalls : string;
  toolCallDifference : Z;
  sharedTools : list string;
  uniqueToSession1 : list string;
  uniqueToSession2 : list string;
  sharedFiles : list string
}.
End Comparison.

Module SessionComparison.
Record t := {
  session1 : SessionStats.t;
  session2 : SessionStats.t;
  comparison : Comparison.t
}.
End SessionComparison.

Definition extractToolCalls (content : Content) : list ToolCall.t :=
  match content with
  | ContentArray items =>
      map GetSessionTimeline.toolCallOf (filter SessionParser.isToolUse items)
  | _ => []
  end.

Definition formatDuration (ms : Js.num) : string :=
  match ms with
  | None => "NaNs"
  | Some ms =>
      let seconds := ms / 1000 in
      let minutes := seconds / 60 in
      let hours := minutes / 60 in
      if hours >? 0
      then Js.showZ hours ++ "h " ++ Js.showZ (Z.rem minutes 60) ++ "m"
      else if minutes >? 0
      then Js.showZ minutes ++ "m " ++ Js.showZ (Z.rem seconds 60) ++ "s"
      else Js.showZ seconds ++ "s"
  end.

(** The property key that [toolsUsed[tool.name]] uses. *)
Definition keyOf (tool : ToolCall.t) : string :=
  match ToolCall.name tool with Some s => s | None => "undefined" end.

(** [set.add(x)]. *)
Definition add (set : list string) (x : string) : list string :=
  if Counts.has set x then set else (set ++ [x])%list.

(** The body of [for (const tool of toolCalls)]. *)
Definition toolStep (v : StatsVars.t) (tool : ToolCall.t) : StatsVars.t :=
  let input := GetSessionTimeline.inputOf tool in
  let filePath :=
    if Js.truthyOpt (file_path input) then file_path input else path input in
  {| StatsVars.summary := StatsVars.summary v;
     StatsVars.gitBranch := StatsVars.gitBranch v;
     StatsVars.startedAt := StatsVars.startedAt v;
     StatsVars.endedAt := StatsVars.endedAt v;
     StatsVars.userMessages := StatsVars.userMessages v;
     StatsVars.assistantMessages := StatsVars.assistantMessages v;
     StatsVars.toolsUsed := Counts.bump (StatsVars.toolsUsed v) (keyOf tool);
     StatsVars.agentSpawns :=
       if GetSessionTimeline.nameIs tool "Task"
       then (StatsVars.agentSpawns v ++
             [ (Js.orElse (subagent_type input) "unknown",
                Js.orElse (description input) "") ])%list
       else StatsVars.agentSpawns v;
     StatsVars.filesAccessed :=
       if (Js.truthyOpt filePath
           && (GetSessionTimeline.nameIs tool "Read"
               || GetSessionTimeline.nameIs tool "Write"
               || GetSessionTimeline.nameIs tool "Edit"))%bool
       then add (StatsVars.filesAccessed v) (Js.orElse filePath "")
       else StatsVars.filesAccessed v |}.

(** The body of the loop over the lines. *)
Definition step (v : StatsVars.t) (line : Fs.Line) : StatsVars.t :=
  match line with
  | Fs.JsonLine msg =>
      let v1 :=
        {| StatsVars.summary := Vars.lastSummary (StatsVars.summary v) msg;
           StatsVars.gitBranch :=
             Vars.firstBranch (StatsVars.gitBranch v)
                              (SessionMessage.gitBranch msg);
           StatsVars.startedAt :=
             Vars.stampStart (StatsVars.startedAt v)
                             (SessionMessage.timestamp msg);
           StatsVars.endedAt :=
             Vars.stampLast (StatsVars.endedAt v)
                            (SessionMessage.timestamp msg);
           StatsVars.userMessages :=
             StatsVars.userMessages v
             + (if (SessionMessage.type msg =? "user")%string then 1 else 0);
           StatsVars.assistantMessages :=
             StatsVars.assistantMessages v
             + GetSessionTimeline.isKind "assistant" msg;
           StatsVars.toolsUsed := StatsVars.toolsUsed v;
           StatsVars.agentSpawns := StatsVars.agentSpawns v;
           StatsVars.filesAccessed := StatsVars.filesAccessed v |} in
      match SessionMessage.message msg with
      | Some m =>
          if (SessionMessage.type msg =? "assistant")%string
          then fold_left toolStep (extractToolCalls (content m)) v1
          else v1
      | None => v1
      end
  | _ => v
  end.

Section Handler.

Variable getTime : string -> Js.num.

(** What [getSessionStats] returns for the first session file it finds:
    [null] when no line carried a timestamp. *)
Definition statsOf (f : Fs.SessionFile) (sessionId projectPath : string)
  (includeFiles : bool) : option SessionStats.t :=
  let v := fold_left step (Fs.lines f) StatsVars.init in
  if negb (Js.truthyOpt (StatsVars.startedAt v)) then None
  else
    let startedAt := Js.orElse (StatsVars.startedAt v) "" in
    let durationMs :=
      if Js.truthyOpt (StatsVars.endedAt v)
      then Js.sub (getTime (Js.orElse (StatsVars.endedAt v) ""))
                  (getTime startedAt)
      else Some 0 in
    Some {| SessionStats.sessionId := sessionId;
            SessionStats.project := projectPath;
            SessionStats.summary := StatsVars.summary v;
            SessionStats.gitBranch := StatsVars.gitBranch v;
            SessionStats.startedAt := startedAt;
            SessionStats.endedAt := Js.orElse (StatsVars.endedAt v) startedAt;
            SessionStats.durationMs := durationMs;
            SessionStats.durationFormatted := formatDuration durationMs;
            SessionStats.messageCount :=
              (StatsVars.userMessages v, StatsVars.assistantMessages v,
               StatsVars.userMessages v + StatsVars.assistantMessages v);
            SessionStats.toolsUsed := StatsVars.toolsUsed v;
            SessionStats.uniqueToolCount :=
              Z.of_nat (List.length (Counts.keys (StatsVars.toolsUsed v)));
            SessionStats.totalToolCalls := Counts.sum (StatsVars.toolsUsed v);
            SessionStats.agentSpawns := StatsVars.agentSpawns v;
            SessionStats.filesAccessed :=
              if includeFiles then Some (StatsVars.filesAccessed v)
              else None |}.

Fixpoint statsIn (dirs : list Fs.ProjectDir) (sessionId : string)
  (includeFiles : bool) : option SessionStats.t :=
  match dirs with
  | [] => None
  | projectDir :: rest =>
      match Fs.stat projectDir sessionId with
      | None => statsIn rest sessionId includeFiles
      | Some f =>
          statsOf f sessionId (Fs.projectPath projectDir) includeFiles
      end
  end.

Definition getSessionStats (root : Fs.Root) (sessionId : string)
  (includeFiles : bool) : option SessionStats.t :=
  match root with
  | Fs.Unreadable _ => None
  | Fs.Projects projectDirs => statsIn projectDirs sessionId includeFiles
  end.

(** The [comparison] object built from the two statistics. *)
Definition compare (sessionId1 sessionId2 : string) (includeFiles : bool)
  (stats1 stats2 : SessionStats.t) : Comparison.t :=
  let tools1 := Counts.keys (SessionStats.toolsUsed stats1) in
  let tools2 := Counts.keys (SessionStats.toolsUsed stats2) in
  let durationDiffMs :=
    Js.abs (Js.sub (SessionStats.durationMs stats1)
                   (SessionStats.durationMs stats2)) in
  {| Comparison.longerSession :=
       if Js.gt (SessionStats.durationMs stats1)
                (SessionStats.durationMs stats2)
       then sessionId1 else sessionId2;
     Comparison.durationDifference := formatDuration durationDiffMs;
     Comparison.moreMessages :=
       if SessionStats.totalMessages stats1
          >? SessionStats.totalMessages stats2
       then sessionId1 else sessionId2;
     Comparison.messageDifference :=
       Z.abs (SessionStats.totalMessages stats1
              - SessionStats.totalMessages stats2);
     Comparison.moreToolCalls :=
       if SessionStats.totalToolCalls stats1
          >? SessionStats.totalToolCalls stats2
       then sessionId1 else sessionId2;
     Comparison.toolCallDifference :=
       Z.abs (SessionStats.totalToolCalls stats1
              - SessionStats.totalToolCalls stats2);
     Comparison.sharedTools := filter (Counts.has tools2) tools1;
     Comparison.uniqueToSession1 :=
       filter (fun t => negb (Counts.has tools2 t)) tools1;
     Comparison.uniqueToSession2 :=
       filter (fun t => negb (Counts.has tools1 t)) tools2;
     Comparison.sharedFiles :=
       match SessionStats.filesAccessed stats1,
             SessionStats.filesAccessed stats2 with
       | Some files1, Some files2 =>
           if includeFiles then filter (Counts.has files2) files1 else []
       | _, _ => []
       end |}.

Definition compareSessionsHandler (root : Fs.Root) (args : Args)
  : ToolResult SessionComparison.t :=
  let includeFiles := SessionParser.orDefault (includeFiles args) false in
  if negb (Js.truthyOpt (sessionId1 args))
  then errorResponse "sessionId1 parameter is required and must be a string"
  else if negb (Js.truthyOpt (sessionId2 args))
  then errorResponse "sessionId2 parameter is required and must be a string"
  else
    let sessionId1 := Js.orElse (sessionId1 args) "" in
    let sessionId2 := Js.orElse (sessionId2 args) "" in
    match getSessionStats root sessionId1 includeFiles,
          getSessionStats root sessionId2 includeFiles with
    | None, _ => errorResponse ("Session " ++ sessionId1 ++ " not found")
    | Some _, None => errorResponse ("Session " ++ sessionId2 ++ " not found")
    | Some stats1, Some stats2 =>
        successResponse
          {| SessionComparison.session1 := stats1;
             SessionComparison.session2 := stats2;
             SessionComparison.comparison :=
               compare sessionId1 sessionId2 includeFiles stats1 stats2 |}
    end.

End Handler.

End CompareSessions.

(** ** Sample data *)

Module Samples.
Import Types.

(** [new Date(s).getTime()] on the two timestamps of the samples; every
    other string is taken as no date. *)
Definition getTime (s : string) : Js.num :=
  if (s =? "2024-01-01T00:00:00.000Z")%string then Some 1704067200000
  else if (s =? "2024-01-01T00:00:05.000Z")%string then Some 1704067205000
  else None.

Definition t0 : string := "2024-01-01T00:00:00.000Z".
Definition t5 : string := "2024-01-01T00:00:05.000Z".

Definition record (type : string) (timestamp gitBranch : option string)
  (message : option Message) : SessionMessage.t :=
  {| SessionMessage.type := type;
     SessionMessage.timestamp := timestamp;
     SessionMessage.gitBranch := gitBranch;
     SessionMessage.summary := None;
     SessionMessage.message := message |}.

Definition says (role text : string) : option Message :=
  Some {| role := role; content := ContentString text |}.

Definition toolUse (tool : string) : Item :=
  ItemBlock {| type := Some "tool_use"; text := None; name := Some tool;
               input := None |}.

Definition calls (tools : list string) : option Message :=
  Some {| role := "assistant"; content := ContentArray (map toolUse tools) |}.

Definition file (records : list SessionMessage.t) : Fs.SessionFile :=
  {| Fs.size := 1024; Fs.lines := map Fs.JsonLine records |}.

Definition project (dirName : string)
  (files : list (string * Fs.SessionFile)) : Fs.ProjectDir :=
  {| Fs.dirName := dirName; Fs.listing := Fs.Entries files |}.

(** A session file that holds one [file-history-snapshot] record only. *)
Definition snapshotOnly : Fs.SessionFile :=
  file [record "file-history-snapshot" None None None].

(** A snapshot record that carries a timestamp, then a user message. *)
Definition snapshotFirst : Fs.SessionFile :=
  file [record "file-history-snapshot" (Some t0) None None;
        record "user" (Some t5) None (says "user" "hi")].

(** An assistant message first, then the first user message. *)
Definition assistantFirst : Fs.SessionFile :=
  file [record "assistant" (Some t0) None (says "assistant" "Hello");
        record "user" (Some t5) None (says "user" "fix the bug")].


(** One user message, on a branch. *)
Definition onBranch (gitBranch : string) : Fs.SessionFile :=
  file [record "user" (Some t0) (Some gitBranch) (says "user" "hi")].

Definition rootOf (f : Fs.SessionFile) : Fs.Root :=
  Fs.Projects [project "-repo" [("s1.jsonl", f)]].

(** The arguments [{ sessionId: "s1", format, limit, offset }]. *)
Definition getSessionArgs (format : option string) (limit offset : option Z)
  : GetSession.Args :=
  {| GetSession.sessionId := Some "s1"; GetSession.format := format;
     GetSession.includeToolCalls := None; GetSession.limit := limit;
     GetSession.offset := offset |}.






(** Three sessions on the branch [main] in one project directory, and
    the arguments [{ branch: "main", limit }]. *)
Definition threeOnMain : Fs.Root :=
  Fs.Projects [project "-repo" [("a.jsonl", onBranch "main");
                                ("b.jsonl", onBranch "main");
                                ("c.jsonl", onBranch "main")]].


(** Two sessions that use the tools [Read], [Edit] and [Read], [Bash],
    and the arguments of [compare_sessions] on two ids. *)
Definition twoSessions : Fs.Root :=
  Fs.Projects
    [project "-repo"
       [("s1.jsonl", file [record "assistant" (Some t0) None
                                  (calls ["Read"; "Edit"])]);
        ("s2.jsonl", file [record "assistant" (Some t0) None
                                  (calls ["Read"; "Bash"])])]].

Definition compareArgs (sessionId1 sessionId2 : string)
  : CompareSessions.Args :=
  {| CompareSessions.sessionId1 := Some sessionId1;
     CompareSessions.sessionId2 := Some sessionId2;
     CompareSessions.includeFiles := None |}.

End Samples.

(** ** Notions of the specification *)

Module Spec.

(** The timestamp of the first record, in file order, that satisfies
    [p] and carries a timestamp. *)
Fixpoint firstTimestamp (p : SessionMessage.t -> bool) (lines : list Fs.Line)
  : option string :=
  match lines with
  | [] => None
  | Fs.JsonLine msg :: rest =>
      if (p msg && Js.truthyOpt (SessionMessage.timestamp msg))%bool
      then SessionMessage.timestamp msg
      else firstTimestamp p rest
  | _ :: rest => firstTimestamp p rest
  end.

Definition anyRecord (msg : SessionMessage.t) : bool := true.

Definition notSummary (msg : SessionMessage.t) : bool :=
  negb (SessionMessage.isSummary msg).




(** [startedAt] of an outcome, when there is one. *)
Definition startedOfSession (r : Types.Except Session.t) : option string :=
  match r with
  | Types.Return s => Some (Session.startedAt s)
  | Types.Throw _ => None
  end.

Definition startedOfTimeline
  (r : Types.ToolResult GetSessionTimeline.SessionTimeline.t)
  : option string :=
  match r with
  | Types.successResponse t =>
      Some (GetSessionTimeline.SessionTimeline.startedAt t)
  | Types.errorResponse _ => None
  end.










End Spec.

(** ** [parsers/session-parser.ts]: the encoding of project paths *)

Module ProjectPaths.

(** [projectPath.replace(/\//g, '-')]. *)
Fixpoint encodeProjectPath (projectPath : string) : string :=
  match projectPath with
  | EmptyString => EmptyString
  | String c s' =>
      String (if Ascii.eqb c "/"%char then "-"%char else c)
             (encodeProjectPath s')
  end.

(** [projectDir.replace(/^-/, '').replace(/-/g, '/')], the decoding that
    every view applies to a directory name. *)
Definition decode (projectDir : string) : string :=
  Js.dashesToSlashes (Js.stripLeadingDash projectDir).

(** A string without the character [c]. *)
Fixpoint without (c : ascii) (s : string) : Prop :=
  match s with
  | EmptyString => True
  | String c' s' => c' <> c /\ without c s'
  end.

End ProjectPaths.

(** ** [parsers/history-parser.ts] and [tools/search-prompts.ts] *)

Module HistoryParser.
Import Types.

(** The interface [HistoryEntry]; [pastedContents] is never read. *)
Module HistoryEntry.
Record t := {
  display : string;
  pastedContents : list (string * string);
  timestamp : Z;
  project : string
}.
End HistoryEntry.

(** What [readline] yields for one line of [history.jsonl]. *)
Inductive Line :=
| BlankLine
| MalformedLine
| JsonLine (entry : HistoryEntry.t).

(** The history file: the read stream fails, or gives its lines. *)
Inductive History :=
| Unreadable (error : string)
| Lines (lines : list Line).

(** The interface [SearchPromptResult]. *)
Module SearchPromptResult.
Record t := {
  prompt : string;
  timestamp : string;
  project : string
}.
End SearchPromptResult.

Module Options.
Record t := {
  query : string;
  project : option string;
  since : option string;
  until : option string;
  limit : option Z
}.
End Options.

Module Found.
Record t := {
  results : list SearchPromptResult.t;
  total : Z
}.
End Found.

Section Dates.

(** [new Date(s).getTime()], NaN for a string that is not a date. *)
Variable getTime : string -> Js.num.

(** [new Date(ms).toISOString()]; [None] when it throws a
    [RangeError]. *)
Variable toISOString : Z -> option string.

(** [entry.timestamp < sinceTimestamp || entry.timestamp > untilTimestamp]
    with [sinceTimestamp = since ? new Date(since).getTime() : 0] and
    [untilTimestamp = until ? new Date(until).getTime() : Infinity]. *)
Definition outOfRange (options : Options.t) (entry : HistoryEntry.t) : bool :=
  (Js.lt (Some (HistoryEntry.timestamp entry))
         (if Js.truthyOpt (Options.since options)
          then getTime (Js.orElse (Options.since options) "")
          else Some 0)
   || (if Js.truthyOpt (Options.until options)
       then Js.gt (Some (HistoryEntry.timestamp entry))
                  (getTime (Js.orElse (Options.until options) ""))
       else false))%bool.

(** The body of the inner [try] up to [results.push]: the result for an
    entry that passes the three filters. *)
Definition matchEntry (options : Options.t) (entry : HistoryEntry.t)
  : option SearchPromptResult.t :=
  if outOfRange options entry then None
  else if (Js.truthyOpt (Options.project options)
           && negb (Js.includes (HistoryEntry.project entry)
                                (Js.orElse (Options.project options) "")))%bool
  then None
  else if negb (Js.includes (Js.toLowerCase (HistoryEntry.display entry))
                            (Js.toLowerCase (Options.query options)))
  then None
  else
    match toISOString (HistoryEntry.timestamp entry) with
    | Some iso =>
        Some {| SearchPromptResult.prompt := HistoryEntry.display entry;
                SearchPromptResult.timestamp := iso;
                SearchPromptResult.project := HistoryEntry.project entry |}
    | None => None
    end.

Definition count {A : Type} (l : list A) : Z := Z.of_nat (List.length l).

(** The loop over the lines; [break] leaves it after a push that brings
    [results.length] to [limit]. *)
Fixpoint scan (options : Options.t) (lines : list Line)
  (results : list SearchPromptResult.t) : list SearchPromptResult.t :=
  match lines with
  | [] => results
  | JsonLine entry :: rest =>
      match matchEntry options entry with
      | Some result =>
          let results' := (results ++ [result])%list in
          if count results'
             >=? SessionParser.orDefault (Options.limit options) 50
          then results'
          else scan options rest results'
      | None => scan options rest results
      end
  | _ :: rest => scan options rest results
  end.

Definition searchPrompts (history : History) (options : Options.t)
  : Except Found.t :=
  match history with
  | Unreadable error => Throw ("Failed to read history file: " ++ error)
  | Lines lines =>
      let results := scan options lines [] in
      Return {| Found.results := rev results;
                Found.total := count (rev results) |}
  end.

(** The arguments of the handler; [query] is [None] when it is absent
    or not a string. *)
Record Args := {
  query : option string;
  project : option string;
  since : option string;
  until : option string;
  limit : option Z
}.

Definition searchPromptsHandler (history : History) (args : Args)
  : ToolResult Found.t :=
  if negb (Js.truthyOpt (query args))
  then errorResponse "query parameter is required and must be a string"
  else
    respond
      (searchPrompts history
         {| Options.query := Js.orElse (query args) "";
            Options.project := project args;
            Options.since := since args;
            Options.until := until args;
            Options.limit := limit args |}).

(** The results of all the entries that pass the filters, in file
    order. *)
Definition matches (options : Options.t) (lines : list Line)
  : list SearchPromptResult.t :=
  flat_map (fun line =>
              match line with
              | JsonLine entry =>
                  match matchEntry options entry with
                  | Some result => [result]
                  | None => []
                  end
              | _ => []
              end) lines.

End Dates.

End HistoryParser.

(** ** [tools/find-sessions-by-file.ts] *)

Module FindSessionsByFile.
Import Types.

Record Args := {
  filePath : option string;
  operation : option string;
  project : option string;
  limit : option Z
}.

Module FileAccessResult.
Record t := {
  sessionId : string;
  project : string;
  summary : option string;
  filePath : string;
  operation : string;
  timestamp : string;
  gitBranch : option string
}.
End FileAccessResult.

(** The payload of the success envelope. *)
Module Found.
Record t := {
  results : list FileAccessResult.t;
  total : Z;
  searchedFile : string
}.
End Found.

Definition FILE_TOOLS : list string := ["Read"; "Write"; "Edit"; "Glob"; "Grep"].

(** [item.type === 'tool_use' && FILE_TOOLS.includes(item.name)]. *)
Definition isFileTool (item : Item) : bool :=
  match item with
  | ItemString _ => false
  | ItemBlock b =>
      (hasType b "tool_use"
       && match name b with
          | Some n => Counts.has FILE_TOOLS n
          | None => false
          end)%bool
  end.

Definition extractToolCalls (content : Content) : list ToolCall.t :=
  match content with
  | ContentArray items =>
      map GetSessionTimeline.toolCallOf (filter isFileTool items)
  | _ => []
  end.

(** [tool.input?.file_path || tool.input?.path || '']. *)
Definition toolFilePath (tool : ToolCall.t) : string :=
  let input := GetSessionTimeline.inputOf tool in
  if Js.truthyOpt (file_path input) then Js.orElse (file_path input) ""
  else Js.orElse (path input) "".

(** [tool.name] of a call that [extractToolCalls] returned: one of
    [FILE_TOOLS]. *)
Definition toolName (tool : ToolCall.t) : string :=
  match ToolCall.name tool with Some n => n | None => "" end.

(** The test of the loop over the tool calls: the operation is the one
    asked for and the path of the call holds the path looked for. *)
Definition touches (args : Args) (tool : ToolCall.t) : bool :=
  let operation := SessionParser.orDefault (operation args) "all" in
  if (negb (operation =? "all")%string
      && negb (GetSessionTimeline.nameIs tool operation))%bool
  then false
  else Js.includes (Js.toLowerCase (toolFilePath tool))
                   (Js.toLowerCase (Js.orElse (filePath args) "")).

(** The [let] variables of the scan of one session file; [matched] is
    [None] while [foundMatch] is false and holds [matchedFile],
    [matchedOp] and [matchedTimestamp] afterwards. *)
Module FileVars.
Record t := {
  summary : option string;
  gitBranch : option string;
  matched : option (string * string * string)
}.

Definition init : t :=
  {| summary := None; gitBranch := None; matched := None |}.
End FileVars.

(** The body of the loop over the lines. *)
Definition step (args : Args) (v : FileVars.t) (line : Fs.Line) : FileVars.t :=
  match line with
  | Fs.JsonLine msg =>
      {| FileVars.summary := Vars.lastSummary (FileVars.summary v) msg;
         FileVars.gitBranch :=
           Vars.firstBranch (FileVars.gitBranch v)
                            (SessionMessage.gitBranch msg);
         FileVars.matched :=
           match FileVars.matched v with
           | Some m => Some m
           | None =>
               match SessionMessage.message msg with
               | Some m =>
                   if (SessionMessage.type msg =? "assistant")%string
                   then
                     match find (touches args) (extractToolCalls (content m))
                     with
                     | Some tool =>
                         Some (toolFilePath tool,
                               toolName tool,
                               Js.orElse (SessionMessage.timestamp msg) "")
                     | None => None
                     end
                   else None
               | None => None
               end
           end |}
  | _ => v
  end.

(** The row of one session file, when a tool call of it matches. *)
Definition scanFile (args : Args) (sessionId projectPath : string)
  (f : Fs.SessionFile) : option FileAccessResult.t :=
  let v := fold_left (step args) (Fs.lines f) FileVars.init in
  match FileVars.matched v with
  | Some (matchedFile, matchedOp, matchedTimestamp) =>
      Some {| FileAccessResult.sessionId := sessionId;
              FileAccessResult.project := projectPath;
              FileAccessResult.summary := FileVars.summary v;
              FileAccessResult.filePath := matchedFile;
              FileAccessResult.operation := matchedOp;
              FileAccessResult.timestamp := matchedTimestamp;
              FileAccessResult.gitBranch := FileVars.gitBranch v |}
  | None => None
  end.

(** The two accumulators of the handler: [results] and
    [seenSessions]. *)
Definition Acc : Type := (list FileAccessResult.t * list string)%type.

Definition count {A : Type} (l : list A) : Z := Z.of_nat (List.length l).

(** The loop over the files of one project directory. *)
Fixpoint scanFiles (args : Args) (projectPath : string)
  (files : list (string * Fs.SessionFile)) (acc : Acc) : Acc :=
  match files with
  | [] => acc
  | (file, f) :: rest =>
      if Fs.notASession file then scanFiles args projectPath rest acc
      else if Counts.has (snd acc) (Fs.sessionIdOf file)
      then scanFiles args projectPath rest acc
      else
        let acc' :=
          match scanFile args (Fs.sessionIdOf file) projectPath f with
          | Some row =>
              ((fst acc ++ [row])%list,
               CompareSessions.add (snd acc) (Fs.sessionIdOf file))
          | None => acc
          end in
        if count (fst acc') >=? SessionParser.orDefault (limit args) 20
        then acc'
        else scanFiles args projectPath rest acc'
  end.

(** The loop over the project directories. *)
Fixpoint scanDirs (args : Args) (dirs : list Fs.ProjectDir) (acc : Acc)
  : Acc :=
  match dirs with
  | [] => acc
  | projectDir :: rest =>
      if SessionParser.skipProject (project args) projectDir
      then scanDirs args rest acc
      else
        match Fs.listing projectDir with
        | Fs.NotListable _ => scanDirs args rest acc
        | Fs.Entries files =>
            let acc' :=
              scanFiles args (Fs.projectPath projectDir) files acc in
            if count (fst acc') >=? SessionParser.orDefault (limit args) 20
            then acc'
            else scanDirs args rest acc'
        end
  end.

Section Handler.

Variable getTime : string -> Js.num.

(** [(a, b) => new Date(b.timestamp).getTime()
               - new Date(a.timestamp).getTime()]. *)
Definition newestFirst (a b : FileAccessResult.t) : Js.num :=
  Js.sub (getTime (FileAccessResult.timestamp b))
         (getTime (FileAccessResult.timestamp a)).

Definition findSessionsByFileHandler (root : Fs.Root) (args : Args)
  : ToolResult Found.t :=
  if negb (Js.truthyOpt (filePath args))
  then errorResponse "filePath parameter is required and must be a string"
  else
    match root with
    | Fs.Unreadable _ =>
        errorResponse "Could not read Claude projects directory"
    | Fs.Projects projectDirs =>
        let results :=
          Js.sort newestFirst (fst (scanDirs args projectDirs ([], []))) in
        successResponse
          {| Found.results :=
               Js.slice results 0 (SessionParser.orDefault (limit args) 20);
             Found.total := count results;
             Found.searchedFile := Js.orElse (filePath args) "" |}
    end.

End Handler.

End FindSessionsByFile.

(** ** [tools/get-tool-usage-stats.ts] *)

Module GetToolUsageStats.
Import Types.

Record Args := {
  sessionId : option string;
  project : option string;
  since : option string;
  until : option string;
  limit : option Z
}.

Definition TOOL_CATEGORIES : list (string * list string) :=
  [("File Operations", ["Read"; "Write"; "Edit"; "Glob"; "Grep"]);
   ("Execution", ["Bash"; "Task"]);
   ("Web", ["WebFetch"; "WebSearch"]);
   ("Planning", ["TodoWrite"; "EnterPlanMode"; "ExitPlanMode"]);
   ("User Interaction", ["AskUserQuestion"])].

(** [item => item.type === 'tool_use' && item.name]. *)
Definition isNamedToolUse (item : Item) : bool :=
  match item with
  | ItemString _ => false
  | ItemBlock b => (hasType b "tool_use" && Js.truthyOpt (name b))%bool
  end.

Definition nameOf (item : Item) : string :=
  match item with
  | ItemString _ => ""
  | ItemBlock b => Js.orElse (name b) ""
  end.

Definition extractToolNames (content : Content) : list string :=
  match content with
  | ContentArray items => map nameOf (filter isNamedToolUse items)
  | _ => []
  end.

(** [[...new Set(l)]]: the first occurrence of each element, in order. *)
Definition unique (l : list string) : list string :=
  fold_left CompareSessions.add l [].

Definition categorizeTools (tools : list string)
  : list (string * list string) :=
  let categorized :=
    flat_map
      (fun entry =>
         match filter (Counts.has (snd entry)) tools with
         | [] => []
         | matching => [(fst entry, unique matching)]
         end)
      TOOL_CATEGORIES in
  let allCategorized := flat_map snd TOOL_CATEGORIES in
  match filter (fun t => negb (Counts.has allCategorized t)) tools with
  | [] => categorized
  | uncategorized =>
      (categorized ++ [("MCP & Other", unique uncategorized)])%list
  end.

(** [toolCounts]: per tool, in the order of first use, its [count] and
    the set [sessions]. *)
Module ToolCounts.
Definition t := list (string * (Z * list string)).

(** [if (!toolCounts[tool]) toolCounts[tool] = { count: 0, sessions:
    new Set() }; toolCounts[tool].count++;
    toolCounts[tool].sessions.add(currentSessionId)]. *)
Fixpoint record (m : t) (tool sessionId : string) : t :=
  match m with
  | [] => [(tool, (1, [sessionId]))]
  | (k, (n, sessions)) :: rest =>
      if (k =? tool)%string
      then (k, (n + 1, CompareSessions.add sessions sessionId)) :: rest
      else (k, (n, sessions)) :: record rest tool sessionId
  end.
End ToolCounts.

Module ToolUsage.
Record t := {
  name : string;
  count : Z
}.
End ToolUsage.

Module TopTool.
Record t := {
  name : string;
  count : Z;
  percentage : string
}.
End TopTool.

Module ToolUsageStats.
Record t := {
  totalToolCalls : Z;
  uniqueTools : Z;
  sessionsAnalyzed : Z;
  toolUsage : list ToolUsage.t;
  topTools : list TopTool.t;
  toolsByCategory : list (string * list string)
}.
End ToolUsageStats.

(** [a >= b] and [a <= b]; a comparison with NaN is false. *)
Definition ge (a b : Js.num) : bool :=
  match a, b with Some x, Some y => x >=? y | _, _ => false end.

Definition le (a b : Js.num) : bool := ge b a.

Section Handler.

Variable getTime : string -> Js.num.
Variable now : Z.

(** [((count / total) * 100).toFixed(1)], the text of a floating-point
    number. *)
Variable toFixed1 : Z -> Z -> string.

(** The variables of the scan of one file: [toolCounts],
    [sessionStartTime] ([None] for [null]) and [hasToolCalls]. *)
Definition FileVars : Type := (ToolCounts.t * option Js.num * bool)%type.

(** The body of the loop over the lines. *)
Definition step (currentSessionId : string) (v : FileVars)
  (line : Fs.Line) : FileVars :=
  match line with
  | Fs.JsonLine msg =>
      let '(toolCounts, sessionStartTime, hasToolCalls) := v in
      let sessionStartTime' :=
        match sessionStartTime with
        | Some d => Some d
        | None =>
            if Js.truthyOpt (SessionMessage.timestamp msg)
            then Some (getTime (Js.orElse (SessionMessage.timestamp msg) ""))
            else None
        end in
      let tools :=
        match SessionMessage.message msg with
        | Some m =>
            if (SessionMessage.type msg =? "assistant")%string
            then extractToolNames (content m) else []
        | None => []
        end in
      (fold_left (fun m tool => ToolCounts.record m tool currentSessionId)
                 tools toolCounts,
       sessionStartTime',
       match tools with [] => hasToolCalls | _ => true end)
  | _ => v
  end.

(** The accumulators of the handler: [toolCounts] and
    [sessionsAnalyzed]. *)
Definition Acc : Type := (ToolCounts.t * Z)%type.

(** The body of the [try] for one session file. *)
Definition scanFile (args : Args) (currentSessionId : string)
  (f : Fs.SessionFile) (acc : Acc) : Acc :=
  let '(toolCounts, sessionStartTime, hasToolCalls) :=
    fold_left (step currentSessionId) (Fs.lines f) (fst acc, None, false) in
  (toolCounts,
   match sessionStartTime with
   | Some d =>
       if (ge d (SessionParser.sinceDate getTime (since args))
           && le d (SessionParser.untilDate getTime now (until args))
           && (hasToolCalls || Js.truthyOpt (sessionId args)))%bool
       then snd acc + 1 else snd acc
   | None => snd acc
   end).

(** [!sessionId && sessionsAnalyzed >= limit]. *)
Definition enough (args : Args) (acc : Acc) : bool :=
  (negb (Js.truthyOpt (sessionId args))
   && (snd acc >=? SessionParser.orDefault (limit args) 10))%bool.

Fixpoint scanFiles (args : Args) (files : list (string * Fs.SessionFile))
  (acc : Acc) : Acc :=
  match files with
  | [] => acc
  | (file, f) :: rest =>
      if Fs.notASession file then scanFiles args rest acc
      else if (Js.truthyOpt (sessionId args)
               && negb (Fs.sessionIdOf file
                        =? Js.orElse (sessionId args) "")%string)%bool
      then scanFiles args rest acc
      else
        let acc' := scanFile args (Fs.sessionIdOf file) f acc in
        if enough args acc' then acc' else scanFiles args rest acc'
  end.

Fixpoint scanDirs (args : Args) (dirs : list Fs.ProjectDir) (acc : Acc)
  : Acc :=
  match dirs with
  | [] => acc
  | projectDir :: rest =>
      if SessionParser.skipProject (project args) projectDir
      then scanDirs args rest acc
      else
        match Fs.listing projectDir with
        | Fs.NotListable _ => scanDirs args rest acc
        | Fs.Entries files =>
            let acc' := scanFiles args files acc in
            if enough args acc' then acc' else scanDirs args rest acc'
        end
  end.

(** [(a, b) => b.count - a.count]. *)
Definition mostUsedFirst (a b : ToolUsage.t) : Js.num :=
  Some (ToolUsage.count b - ToolUsage.count a).

(** The statistics built from [toolCounts] and [sessionsAnalyzed]. *)
Definition statsOf (acc : Acc) : ToolUsageStats.t :=
  let toolUsage :=
    Js.sort mostUsedFirst
      (map (fun entry => {| ToolUsage.name := fst entry;
                            ToolUsage.count := fst (snd entry) |})
           (fst acc)) in
  let totalToolCalls :=
    fold_left (fun sum t => sum + ToolUsage.count t) toolUsage 0 in
  {| ToolUsageStats.totalToolCalls := totalToolCalls;
     ToolUsageStats.uniqueTools := Z.of_nat (List.length toolUsage);
     ToolUsageStats.sessionsAnalyzed := snd acc;
     ToolUsageStats.toolUsage := Js.slice toolUsage 0 20;
     ToolUsageStats.topTools :=
       map (fun t =>
              {| TopTool.name := ToolUsage.name t;
                 TopTool.count := ToolUsage.count t;
                 TopTool.percentage :=
                   if totalToolCalls >? 0
                   then toFixed1 (ToolUsage.count t) totalToolCalls ++ "%"
                   else "0%" |})
           (Js.slice toolUsage 0 10);
     ToolUsageStats.toolsByCategory :=
       categorizeTools (map ToolUsage.name toolUsage) |}.

Definition getToolUsageStatsHandler (root : Fs.Root) (args : Args)
  : ToolResult ToolUsageStats.t :=
  match root with
  | Fs.Unreadable _ => errorResponse "Could not read Claude projects directory"
  | Fs.Projects projectDirs =>
      successResponse (statsOf (scanDirs args projectDirs ([], 0)))
  end.

End Handler.

End GetToolUsageStats.

(** ** Derived facts of a session file *)

Module Derived.

(** A line that decodes to a record. *)
Definition isJson (line : Fs.Line) : bool :=
  match line with Fs.JsonLine _ => true | _ => false end.

(** The file without its blank and malformed lines. *)
Definition records (f : Fs.SessionFile) : Fs.SessionFile :=
  {| Fs.size := Fs.size f; Fs.lines := filter isJson (Fs.lines f) |}.

(** The value of [field] in the first record, in file order, that
    satisfies [p] and has a non-empty value there. *)
Fixpoint firstOf (field : SessionMessage.t -> option string)
  (p : SessionMessage.t -> bool) (lines : list Fs.Line) : option string :=
  match lines with
  | [] => None
  | Fs.JsonLine msg :: rest =>
      if (p msg && Js.truthyOpt (field msg))%bool then field msg
      else firstOf field p rest
  | _ :: rest => firstOf field p rest
  end.

(** The value of [field] in the last such record. *)
Fixpoint lastOf (field : SessionMessage.t -> option string)
  (p : SessionMessage.t -> bool) (lines : list Fs.Line) : option string :=
  match lines with
  | [] => None
  | Fs.JsonLine msg :: rest =>
      match lastOf field p rest with
      | Some x => Some x
      | None =>
          if (p msg && Js.truthyOpt (field msg))%bool then field msg
          else None
      end
  | _ :: rest => lastOf field p rest
  end.

(** The number of records that satisfy [p]. *)
Fixpoint countRecords (p : SessionMessage.t -> bool) (lines : list Fs.Line)
  : Z :=
  match lines with
  | [] => 0
  | Fs.JsonLine msg :: rest =>
      (if p msg then 1 else 0) + countRecords p rest
  | _ :: rest => countRecords p rest
  end.

Definition isSummaryRecord (msg : SessionMessage.t) : bool :=
  (SessionMessage.type msg =? "summary")%string.


(** [m[k] || 0] for a table of counts. *)
Fixpoint get (m : Counts.t) (k : string) : Z :=
  match m with
  | [] => 0
  | (k', n) :: rest => if (k' =? k)%string then n else get rest k
  end.

(** The category of a tool: the first entry of [TOOL_CATEGORIES] that
    lists it, and [MCP & Other] when none does. *)
Definition categoryOf (tool : string) : string :=
  match find (fun entry => Counts.has (snd entry) tool)
             GetToolUsageStats.TOOL_CATEGORIES with
  | Some entry => fst entry
  | None => "MCP & Other"
  end.







(** What holds of a session that [listSessions] keeps: its project
    holds the [project] filter, and its start is neither before
    [since] nor after [until]. *)
Definition listedOk (getTime : string -> Js.num) (now : Z)
  (options : SessionParser.ListOptions.t) (s : SessionInfo.t) : Prop :=
  (Js.truthyOpt (SessionParser.ListOptions.project options) = true ->
   Js.includes (SessionInfo.project s)
     (Js.orElse (SessionParser.ListOptions.project options) "") = true)
  /\ Js.lt (getTime (SessionInfo.startedAt s))
           (SessionParser.sinceDate getTime
              (SessionParser.ListOptions.since options)) = false
  /\ Js.gt (getTime (SessionInfo.startedAt s))
           (SessionParser.untilDate getTime now
              (SessionParser.ListOptions.until options)) = false
  /\ Js.truthy (SessionInfo.startedAt s) = true.




(** The two roles of a message. *)
Definition roleOk (role : string) : Prop :=
  role = "user" \/ role = "assistant".

(** What holds of the [data] of [get_session] for the format asked
    for: its shape, the role of every message, and what the legacy
    filter and the empty texts leave out. *)
Definition dataOk (format : string) (includeToolCalls : bool)
  (data : SessionData) : Prop :=
  match data with
  | DataMarkdown _ => format = "markdown"
  | DataJson messages =>
      format = "json"
      /\ Forall (fun m =>
                   roleOk (SessionMessage_Output.role m)
                   /\ (includeToolCalls = false ->
                       Js.includes (SessionMessage_Output.content m) "[Tool"
                       = false))
                messages
  | DataFull messages =>
      format = "full" /\ Forall (fun m => roleOk (FullMessage.role m)) messages
  | DataStandard messages =>
      format = "standard"
      /\ Forall (fun m =>
                   roleOk (StandardMessage.role m)
                   /\ StandardMessage.text m <> Some ""
                   /\ StandardMessage.toolCalls m <> Some [])
                messages
  | DataMinimal messages =>
      format = "minimal"
      /\ Forall (fun m =>
                   roleOk (MinimalMessage.role m)
                   /\ 0 <= MinimalMessage.contentLength m
                   /\ MinimalMessage.toolCalls m <> Some [])
                messages
  | DataRaw messages =>
      ~ In format ["markdown"; "json"; "full"; "standard"; "minimal"]
      /\ Forall (fun m => roleOk (ParsedMessage.role m)) messages
  end.



(** A project directory without the entries that are no session files:
    those whose name does not end in [.jsonl] or starts with
    [agent-]. *)
Definition isSession (entry : string * Fs.SessionFile) : bool :=
  negb (Fs.notASession (fst entry)).

Definition sessionsOnly (d : Fs.ProjectDir) : Fs.ProjectDir :=
  {| Fs.dirName := Fs.dirName d;
     Fs.listing :=
       match Fs.listing d with
       | Fs.Entries files => Fs.Entries (filter isSession files)
       | Fs.NotListable error => Fs.NotListable error
       end |}.

Definition sessionsOnlyRoot (root : Fs.Root) : Fs.Root :=
  match root with
  | Fs.Projects dirs => Fs.Projects (map sessionsOnly dirs)
  | Fs.Unreadable error => Fs.Unreadable error
  end.





End Derived.

(** ** More sample data *)

Module MoreSamples.
Import Types.

(** A [Task] tool call that spawns an agent of the given type. *)
Definition task (subagentType : string) : Item :=
  ItemBlock
    {| type := Some "tool_use"; text := None; name := Some "Task";
       input :=
         Some {| file_path := None; path := None;
                 subagent_type := Some subagentType;
                 description := Some "work"; prompt := None;
                 command := None |} |}.

(** A tool call on a file. *)
Definition onFile (tool filePath : string) : Item :=
  ItemBlock
    {| type := Some "tool_use"; text := None; name := Some tool;
       input :=
         Some {| file_path := Some filePath; path := None;
                 subagent_type := None; description := None; prompt := None;
                 command := None |} |}.

Definition does (items : list Item) : option Message :=
  Some {| role := "assistant"; content := ContentArray items |}.

(** A session that spawns three agents. *)
Definition spawning : Fs.SessionFile :=
  Samples.file
    [Samples.record "user" (Some Samples.t0) None (Samples.says "user" "go");
     Samples.record "assistant" (Some Samples.t5) None
       (does [task "explore"; task "plan"; task "explore"])].

(** A user message, then a [Read] of [/a/b.txt]. *)
Definition readsFile : Fs.SessionFile :=
  Samples.file
    [Samples.record "user" (Some Samples.t0) None (Samples.says "user" "hi");
     Samples.record "assistant" (Some Samples.t5) None
       (does [onFile "Read" "/a/b.txt"])].


(** The arguments [{ filePath }] of [find_sessions_by_file]. *)
Definition fileArgs (filePath : string) : FindSessionsByFile.Args :=
  {| FindSessionsByFile.filePath := Some filePath;
     FindSessionsByFile.operation := None;
     FindSessionsByFile.project := None;
     FindSessionsByFile.limit := None |}.

(** [get_tool_usage_stats] without arguments. *)
Definition usageArgs : GetToolUsageStats.Args :=
  {| GetToolUsageStats.sessionId := None;
     GetToolUsageStats.project := None;
     GetToolUsageStats.since := None;
     GetToolUsageStats.until := None;
     GetToolUsageStats.limit := None |}.

End MoreSamples.

(** ** Sample history *)

Module HistorySamples.

Definition toISOString (ms : Z) : option string :=
  if ms =? 1704067200000 then Some Samples.t0
  else if ms =? 1704067205000 then Some Samples.t5
  else None.

Definition entry (display : string) (timestamp : Z)
  : HistoryParser.HistoryEntry.t :=
  {| HistoryParser.HistoryEntry.display := display;
     HistoryParser.HistoryEntry.pastedContents := [];
     HistoryParser.HistoryEntry.timestamp := timestamp;
     HistoryParser.HistoryEntry.project := "/work/app" |}.

Definition history : HistoryParser.History :=
  HistoryParser.Lines
    [HistoryParser.JsonLine (entry "Fix the parser" 1704067200000);
     HistoryParser.BlankLine;
     HistoryParser.JsonLine (entry "run tests" 1704067205000);
     HistoryParser.JsonLine (entry "fix the tests" 1704067205000)].

Definition args : HistoryParser.Args :=
  {| HistoryParser.query := Some "FIX";
     HistoryParser.project := Some "work";
     HistoryParser.since := None;
     HistoryParser.until := None;
     HistoryParser.limit := None |}.

End HistorySamples.

(** * Properties *)

Import Types.

(** Case analysis on the condition of the first conditional of the
    goal. *)
Ltac case_if :=
  match goal with |- context [if ?c then _ else _] => destruct c end.

(** ** JavaScript primitives on small inputs *)

Example strings_on_small_inputs :
  Js.includes "hello" "ell" = true
  /\ Js.includes "hello" "" = true
  /\ Js.indexOf "hello" "l" = 2
  /\ Js.indexOf "hello" "z" = -1
  /\ Js.substring "hello" 1 3 = "el"
  /\ Js.substring "hello" 3 1 = "el"
  /\ Js.substring "hello" 0 200 = "hello"
  /\ Js.toLowerCase "Feature/LOGIN-1" = "feature/login-1"
  /\ Js.lastSegment "/a/b.txt" = "b.txt"
  /\ Js.showZ 125 = "125".
Proof. repeat split. Qed.

Example files_on_small_inputs :
  Fs.notASession "s1.jsonl" = false
  /\ Fs.notASession "agent-1.jsonl" = true
  /\ Fs.notASession "notes.txt" = true
  /\ Fs.sessionIdOf "s1.jsonl" = "s1"
  /\ Fs.projectPath (Samples.project "-home-user-repo" []) = "home/user/repo".
Proof. repeat split. Qed.

Example arrays_on_small_inputs :
  Js.slice [1; 2; 3; 4] 1 3 = [2; 3]
  /\ Js.slice [1; 2; 3; 4] 2 100 = [3; 4]
  /\ Js.slice [1; 2; 3; 4] 5 7 = []
  /\ Js.slice [1; 2; 3; 4] 0 (-1) = [1; 2; 3]
  /\ Js.sort (fun a b => Some (a - b)) [3; 1; 2; 1] = [1; 1; 2; 3]
  /\ Js.sort (fun a b => Some (b - a)) [3; 1; 2; 1] = [3; 2; 1; 1]
  /\ Js.sort (fun _ _ => None) [3; 1; 2; 1] = [3; 1; 2; 1].
Proof. repeat split. Qed.

(** ** Lists, slices and sorting *)







(** ** Content extractors *)

(** C7. Every extractor of flat text returns a bare string unchanged
    and returns the empty string for an empty block sequence: the one
    of the session parser, the one of the content search and the one of
    the timeline. *)
Theorem extractText_string_identity_empty_blocks :
  (forall s, SessionParser.extractContentText (ContentString s) = s)
  /\ (forall s, SearchSessionContent.extractContentText (ContentString s) = s)
  /\ (forall s, GetSessionTimeline.extractTextContent (ContentString s) = s)
  /\ SessionParser.extractContentText (ContentArray []) = ""
  /\ SearchSessionContent.extractContentText (ContentArray []) = ""
  /\ GetSessionTimeline.extractTextContent (ContentArray []) = "".
Proof. repeat split; reflexivity. Qed.

(** ** [get_session]: not found and invalid sessions *)

Lemma getSessionIn_throws dirs sid fmt itc l o msg :
  SessionParser.getSessionIn dirs sid fmt itc l o = Throw msg ->
  msg = "Session " ++ sid ++ " not found".
Proof.
  induction dirs as [|d dirs IH]; simpl.
  - intro H. now inversion H.
  - destruct (Fs.stat d sid) as [f|]; [|exact IH].
    destruct (SessionParser.parseSessionFile f sid (Fs.projectPath d) fmt itc l o);
      [discriminate|exact IH].
Qed.

(** Whatever the project directories hold, the only error that
    [get_session] reports for a session id is the not-found one. *)
Lemma getSessionHandler_errors dirs args msg :
  Js.truthyOpt (GetSession.sessionId args) = true ->
  GetSession.getSessionHandler (Fs.Projects dirs) args = errorResponse msg ->
  msg = "Session " ++ Js.orElse (GetSession.sessionId args) "" ++ " not found".
Proof.
  intros Hid. unfold GetSession.getSessionHandler. rewrite Hid. simpl.
  match goal with
  | |- respond ?r = _ -> _ => destruct r as [s|m] eqn:E
  end; simpl; [discriminate|].
  intro H. inversion H. subst m.
  now apply getSessionIn_throws in E.
Qed.

Lemma getSessionIn_no_file dirs sid fmt itc l o :
  (forall d, In d dirs -> Fs.stat d sid = None) ->
  SessionParser.getSessionIn dirs sid fmt itc l o
  = Throw ("Session " ++ sid ++ " not found").
Proof.
  induction dirs as [|d dirs IH]; intro Hno; simpl; [reflexivity|].
  rewrite (Hno d (or_introl eq_refl)).
  apply IH. intros d' Hd'. apply Hno. now right.
Qed.

(** When no project directory holds [<sessionId>.jsonl], [get_session]
    fails with the not-found error that names the id. *)
Lemma getSessionHandler_no_file dirs args :
  Js.truthyOpt (GetSession.sessionId args) = true ->
  (forall d, In d dirs ->
             Fs.stat d (Js.orElse (GetSession.sessionId args) "") = None) ->
  GetSession.getSessionHandler (Fs.Projects dirs) args
  = errorResponse
      ("Session " ++ Js.orElse (GetSession.sessionId args) "" ++ " not found").
Proof.
  intros Hid Hno. unfold GetSession.getSessionHandler. rewrite Hid.
  cbn [negb SessionParser.getSession
       SessionParser.GetSessionOptions.sessionId].
  now rewrite getSessionIn_no_file.
Qed.

(** C1. A session file that holds only a [file-history-snapshot] record
    makes [parseSessionFile] throw the invalid-session error, but
    [get_session] answers with the not-found error: the [catch] around
    [parseSessionFile] in [getSession] goes on to the next directory.
    [get_session_timeline] answers the same request with the
    invalid-session error. *)
Theorem get_session_snapshot_only_reports_not_found :
  SessionParser.parseSessionFile Samples.snapshotOnly "s1" "repo" "standard"
                                 false 50 0
  = Throw "Invalid session file: no timestamps found"
  /\ GetSession.getSessionHandler (Samples.rootOf Samples.snapshotOnly)
                                  (Samples.getSessionArgs None None None)
     = errorResponse "Session s1 not found"
  /\ GetSessionTimeline.getSessionTimelineHandler
       Samples.getTime (Samples.rootOf Samples.snapshotOnly)
       (GetSessionTimeline.Build_Args (Some "s1") None None None None)
     = errorResponse "Invalid session file: no timestamps found".
Proof. repeat split. Qed.

(** ** [get_session_summary]: the synthetic summary *)

(** C4. In a session without a summary record whose first message is an
    assistant message, the user message that follows is not looked at:
    [getSessionSummary] asks [parseSessionFile] for a page of one
    message and answers ['No summary available'], though the first user
    message of the transcript reads ['fix the bug']. *)
Theorem summary_ignores_user_message_after_assistant :
  exists r s,
    GetSessionSummary.getSessionSummaryHandler
      (Samples.rootOf Samples.assistantFirst) (Some "s1")
    = successResponse r
    /\ SessionSummary.summary r = "No summary available"
    /\ SessionParser.parseSessionFile Samples.assistantFirst "s1" "repo"
                                      "json" false 50 0 = Return s
    /\ option_map SessionMessage_Output.content
         (find (fun m => (SessionMessage_Output.role m =? "user")%string)
               (SessionParser.legacyData (Session.data s)))
       = Some "fix the bug".
Proof. do 2 eexists. repeat split. Qed.

(** ** [startedAt] in the views *)

Section FirstTimestamp.

(** A loop over the lines whose variable [startedAt] is set by
    [if (msg.timestamp) { if (!startedAt) startedAt = msg.timestamp }]
    on the records that satisfy [p], and is left alone on the others. *)
Context {V : Type}.
Variable step : V -> Fs.Line -> V.
Variable started : V -> option string.
Variable p : SessionMessage.t -> bool.

Hypothesis step_started : forall v line,
  started (step v line)
  = match line with
    | Fs.JsonLine msg =>
        if p msg
        then Vars.stampStart (started v) (SessionMessage.timestamp msg)
        else started v
    | _ => started v
    end.

Lemma stampStart_normal (o ts : option string) :
  Js.orUndefined o = o ->
  Js.orUndefined (Vars.stampStart o ts) = Vars.stampStart o ts.
Proof.
  unfold Vars.stampStart. intro Ho.
  destruct (Js.truthyOpt ts) eqn:Ets; [|exact Ho].
  destruct (Js.truthyOpt o); simpl; [exact Ho|].
  unfold Js.orUndefined. now rewrite Ets.
Qed.

Lemma fold_started lines : forall v,
  Js.orUndefined (started v) = started v ->
  started (fold_left step lines v)
  = if Js.truthyOpt (started v) then started v
    else Spec.firstTimestamp p lines.
Proof.
  induction lines as [|line lines IH]; intros v Hv; simpl.
  - unfold Js.orUndefined in Hv.
    destruct (Js.truthyOpt (started v)); [reflexivity|now symmetry].
  - rewrite IH, step_started.
    + destruct line as [| |msg]; try reflexivity.
      destruct (p msg); simpl; [|reflexivity].
      unfold Vars.stampStart.
      destruct (Js.truthyOpt (SessionMessage.timestamp msg)) eqn:Ets;
        destruct (Js.truthyOpt (started v)) eqn:Ev; simpl;
        rewrite ?Ets, ?Ev; reflexivity.
    + rewrite step_started.
      destruct line as [| |msg]; try assumption.
      destruct (p msg); [|assumption].
      now apply stampStart_normal.
Qed.

End FirstTimestamp.

Lemma infoStep_started v line :
  InfoVars.startedAt (SessionParser.infoStep v line)
  = match line with
    | Fs.JsonLine msg =>
        if SessionMessage.isUserOrAssistant msg
        then Vars.stampStart (InfoVars.startedAt v)
                             (SessionMessage.timestamp msg)
        else InfoVars.startedAt v
    | _ => InfoVars.startedAt v
    end.
Proof.
  destruct line as [| |msg]; try reflexivity. simpl.
  now destruct (SessionMessage.isUserOrAssistant msg).
Qed.

Lemma parseStep_started v line :
  ParseVars.startedAt (SessionParser.parseStep v line)
  = match line with
    | Fs.JsonLine msg =>
        if SessionMessage.isUserOrAssistant msg
        then Vars.stampStart (ParseVars.startedAt v)
                             (SessionMessage.timestamp msg)
        else ParseVars.startedAt v
    | _ => ParseVars.startedAt v
    end.
Proof.
  destruct line as [| |msg]; try reflexivity. simpl.
  now destruct (SessionMessage.isUserOrAssistant msg).
Qed.

Lemma timeline_step_started inc v line :
  GetSessionTimeline.TimelineVars.startedAt (GetSessionTimeline.step inc v line)
  = match line with
    | Fs.JsonLine msg =>
        if Spec.notSummary msg
        then Vars.stampStart (GetSessionTimeline.TimelineVars.startedAt v)
                             (SessionMessage.timestamp msg)
        else GetSessionTimeline.TimelineVars.startedAt v
    | _ => GetSessionTimeline.TimelineVars.startedAt v
    end.
Proof.
  destruct line as [| |msg]; try reflexivity.
  unfold GetSessionTimeline.step, Spec.notSummary.
  now destruct (SessionMessage.isSummary msg).
Qed.

Lemma toolSteps_started calls : forall v,
  CompareSessions.StatsVars.startedAt
    (fold_left CompareSessions.toolStep calls v)
  = CompareSessions.StatsVars.startedAt v.
Proof.
  induction calls as [|c calls IH]; intro v; simpl; [reflexivity|].
  now rewrite IH.
Qed.

Lemma stats_step_started v line :
  CompareSessions.StatsVars.startedAt (CompareSessions.step v line)
  = match line with
    | Fs.JsonLine msg =>
        if Spec.anyRecord msg
        then Vars.stampStart (CompareSessions.StatsVars.startedAt v)
                             (SessionMessage.timestamp msg)
        else CompareSessions.StatsVars.startedAt v
    | _ => CompareSessions.StatsVars.startedAt v
    end.
Proof.
  destruct line as [| |msg]; try reflexivity.
  unfold CompareSessions.step. simpl.
  destruct (SessionMessage.message msg) as [m|]; [|reflexivity].
  destruct (SessionMessage.type msg =? "assistant")%string; [|reflexivity].
  now rewrite toolSteps_started.
Qed.

(** A timestamp found by [firstTimestamp] is not the empty string. *)
Lemma firstTimestamp_truthy p lines :
  Js.orUndefined (Spec.firstTimestamp p lines) = Spec.firstTimestamp p lines.
Proof.
  induction lines as [|[| |msg] lines IH]; simpl; try assumption.
  - reflexivity.
  - destruct (p msg); simpl; [|assumption].
    destruct (Js.truthyOpt (SessionMessage.timestamp msg)) eqn:E; [|assumption].
    unfold Js.orUndefined. now rewrite E.
Qed.

Lemma started_cases (o : option string) :
  Js.orUndefined o = o ->
  (o = None /\ Js.truthyOpt o = false)
  \/ (exists s, o = Some s /\ Js.truthy s = true /\ Js.truthyOpt o = true).
Proof.
  unfold Js.orUndefined. destruct o as [s|]; simpl; [|now left].
  destruct (Js.truthy s) eqn:E; [|discriminate].
  intros _. right. now exists s.
Qed.

Lemma info_started (f : Fs.SessionFile) :
  InfoVars.startedAt (fold_left SessionParser.infoStep (Fs.lines f) InfoVars.init)
  = Spec.firstTimestamp SessionMessage.isUserOrAssistant (Fs.lines f).
Proof.
  now rewrite (fold_started _ _ _ infoStep_started).
Qed.

Lemma parse_started (f : Fs.SessionFile) :
  ParseVars.startedAt
    (fold_left SessionParser.parseStep (Fs.lines f) ParseVars.init)
  = Spec.firstTimestamp SessionMessage.isUserOrAssistant (Fs.lines f).
Proof.
  now rewrite (fold_started _ _ _ parseStep_started).
Qed.

Lemma getSessionInfo_started f sid proj :
  option_map SessionInfo.startedAt (SessionParser.getSessionInfo f sid proj)
  = Spec.firstTimestamp SessionMessage.isUserOrAssistant (Fs.lines f).
Proof.
  unfold SessionParser.getSessionInfo. rewrite info_started.
  destruct (started_cases _ (firstTimestamp_truthy
                               SessionMessage.isUserOrAssistant (Fs.lines f)))
    as [[-> _]|[s [-> [Hs _]]]]; [reflexivity|].
  now rewrite Hs.
Qed.

Lemma parseSessionFile_started f sid proj fmt itc l o :
  Spec.startedOfSession (SessionParser.parseSessionFile f sid proj fmt itc l o)
  = Spec.firstTimestamp SessionMessage.isUserOrAssistant (Fs.lines f).
Proof.
  unfold SessionParser.parseSessionFile. rewrite parse_started.
  destruct (started_cases _ (firstTimestamp_truthy
                               SessionMessage.isUserOrAssistant (Fs.lines f)))
    as [[-> _]|[s [-> [Hs _]]]]; [reflexivity|].
  now rewrite Hs.
Qed.

Lemma summarize_started f sid proj :
  match SessionParser.summarize f sid proj with
  | Return r => Some (SessionSummary.startedAt r)
  | Throw _ => None
  end = Spec.firstTimestamp SessionMessage.isUserOrAssistant (Fs.lines f).
Proof.
  unfold SessionParser.summarize.
  pose proof (getSessionInfo_started f sid proj) as Hi.
  pose proof (parseSessionFile_started f sid proj "json" false 1 0) as Hp.
  destruct (SessionParser.getSessionInfo f sid proj) as [info|];
    simpl in Hi; [|exact Hi].
  destruct (Js.truthyOpt (SessionInfo.summary info)); [exact Hi|].
  destruct (SessionParser.parseSessionFile f sid proj "json" false 1 0);
    simpl in Hp; [exact Hi|].
  rewrite <- Hp in Hi. discriminate.
Qed.

Lemma scanFile_started args sid proj f :
  match FindSessionsByBranch.scanFile args sid proj f with
  | Some r =>
      Some (FindSessionsByBranch.BranchSessionResult.startedAt r)
      = Spec.firstTimestamp SessionMessage.isUserOrAssistant (Fs.lines f)
  | None => True
  end.
Proof.
  unfold FindSessionsByBranch.scanFile. rewrite info_started.
  destruct (started_cases _ (firstTimestamp_truthy
                               SessionMessage.isUserOrAssistant (Fs.lines f)))
    as [[-> _]|[s [-> [Hs _]]]].
  - now rewrite andb_false_r.
  - case_if;
      [|exact I].
    case_if;
      [|exact I].
    simpl. now rewrite Hs.
Qed.

Lemma timelineOf_started getTime f sid proj inc fmt l o :
  Spec.startedOfTimeline
    (GetSessionTimeline.timelineOf getTime f sid proj inc fmt l o)
  = Spec.firstTimestamp Spec.notSummary (Fs.lines f).
Proof.
  unfold GetSessionTimeline.timelineOf.
  rewrite (fold_started _ _ Spec.notSummary (timeline_step_started inc))
    by reflexivity.
  simpl.
  destruct (started_cases _ (firstTimestamp_truthy Spec.notSummary (Fs.lines f)))
    as [[-> _]|[s [-> [Hs _]]]]; [reflexivity|].
  simpl. now rewrite Hs.
Qed.

Lemma statsOf_started getTime f sid proj inc :
  option_map CompareSessions.SessionStats.startedAt
    (CompareSessions.statsOf getTime f sid proj inc)
  = Spec.firstTimestamp Spec.anyRecord (Fs.lines f).
Proof.
  unfold CompareSessions.statsOf.
  rewrite (fold_started _ _ Spec.anyRecord stats_step_started) by reflexivity.
  simpl.
  destruct (started_cases _ (firstTimestamp_truthy Spec.anyRecord (Fs.lines f)))
    as [[-> _]|[s [-> [Hs _]]]]; [reflexivity|].
  simpl. now rewrite Hs.
Qed.

(** C3, as the specification states it, fails: for a file whose first
    timestamped record is a [file-history-snapshot], [getSessionInfo]
    (the source of [list_sessions] and [get_session_summary]) does not
    report the timestamp of that record. *)
Lemma startedAt_skips_snapshot_record :
  option_map SessionInfo.startedAt
    (SessionParser.getSessionInfo Samples.snapshotFirst "s1" "repo")
  <> Spec.firstTimestamp Spec.anyRecord (Fs.lines Samples.snapshotFirst).
Proof. vm_compute. discriminate. Qed.

(** C3, amended. For every session file, [list_sessions], [get_session],
    [get_session_summary] and [find_sessions_by_branch] report as
    [startedAt] the timestamp of the first user or assistant record that
    carries one (and reject the file when there is none);
    [get_session_timeline] reports that of the first record carrying one
    that is not a summary record with a summary text; and
    [compare_sessions] reports that of the first record of any kind
    carrying one. *)
Theorem startedAt_of_each_view :
  forall (getTime : string -> Js.num) (f : Fs.SessionFile) (sid proj : string),
    option_map SessionInfo.startedAt (SessionParser.getSessionInfo f sid proj)
    = Spec.firstTimestamp SessionMessage.isUserOrAssistant (Fs.lines f)
    /\ (forall fmt itc limit offset,
          Spec.startedOfSession
            (SessionParser.parseSessionFile f sid proj fmt itc limit offset)
          = Spec.firstTimestamp SessionMessage.isUserOrAssistant (Fs.lines f))
    /\ match SessionParser.summarize f sid proj with
       | Return r => Some (SessionSummary.startedAt r)
       | Throw _ => None
       end = Spec.firstTimestamp SessionMessage.isUserOrAssistant (Fs.lines f)
    /\ (forall args,
          match FindSessionsByBranch.scanFile args sid proj f with
          | Some r =>
              Some (FindSessionsByBranch.BranchSessionResult.startedAt r)
              = Spec.firstTimestamp SessionMessage.isUserOrAssistant
                                    (Fs.lines f)
          | None => True
          end)
    /\ (forall inc fmt limit offset,
          Spec.startedOfTimeline
            (GetSessionTimeline.timelineOf getTime f sid proj inc fmt
                                           limit offset)
          = Spec.firstTimestamp Spec.notSummary (Fs.lines f))
    /\ (forall inc,
          option_map CompareSessions.SessionStats.startedAt
            (CompareSessions.statsOf getTime f sid proj inc)
          = Spec.firstTimestamp Spec.anyRecord (Fs.lines f)).
Proof.
  intros getTime f sid proj. repeat split; intros.
  - apply getSessionInfo_started.
  - apply parseSessionFile_started.
  - apply summarize_started.
  - apply scanFile_started.
  - apply timelineOf_started.
  - apply statsOf_started.
Qed.

(** ** [get_session]: pagination *)




Lemma getSessionIn_inv dirs sid fmt itc l o s :
  SessionParser.getSessionIn dirs sid fmt itc l o = Return s ->
  exists d f,
    In d dirs /\ Fs.stat d sid = Some f
    /\ SessionParser.parseSessionFile f sid (Fs.projectPath d) fmt itc l o
       = Return s.
Proof.
  induction dirs as [|d dirs IH]; simpl; [discriminate|].
  destruct (Fs.stat d sid) as [f|] eqn:Est.
  - destruct (SessionParser.parseSessionFile f sid (Fs.projectPath d)
                                             fmt itc l o) as [s'|m] eqn:Ep.
    + intro H. inversion H. subst s'. exists d, f. now repeat split; [left| |].
    + intro H. destruct (IH H) as [d' [f' [Hin H']]].
      exists d', f'. split; [now right|exact H'].
  - intro H. destruct (IH H) as [d' [f' [Hin H']]].
    exists d', f'. split; [now right|exact H'].
Qed.




(** ** Strings: lower case and containment *)







(** ** [find_sessions_by_branch]: the branch filter *)






(** ** Pagination arguments of the handlers *)



















(** ** Determinism and the clock *)











(** ** [total] in the search views *)












(** ** [compare_sessions]: ties and the order of the arguments *)

Lemma has_In (ks : list string) (k : string) :
  Counts.has ks k = true <-> In k ks.
Proof.
  unfold Counts.has. rewrite existsb_exists. split.
  - intros [k' [Hin He]]. apply String.eqb_eq in He. now subst.
  - intro Hin. exists k. split; [exact Hin|apply String.eqb_refl].
Qed.



(** The scenario of the specification: tool sets [{Read, Edit}] and
    [{Read, Bash}]. *)
Example compare_sessions_tool_sets :
  exists r,
    CompareSessions.compareSessionsHandler
      Samples.getTime Samples.twoSessions (Samples.compareArgs "s1" "s2")
    = successResponse r
    /\ CompareSessions.Comparison.sharedTools
         (CompareSessions.SessionComparison.comparison r) = ["Read"]
    /\ CompareSessions.Comparison.uniqueToSession1
         (CompareSessions.SessionComparison.comparison r) = ["Edit"]
    /\ CompareSessions.Comparison.uniqueToSession2
         (CompareSessions.SessionComparison.comparison r) = ["Bash"].
Proof. eexists. repeat split. Qed.

Example formatDuration_by_magnitude :
  CompareSessions.formatDuration (Some 3725000) = "1h 2m"
  /\ CompareSessions.formatDuration (Some 125000) = "2m 5s"
  /\ CompareSessions.formatDuration (Some 5000) = "5s"
  /\ GetSessionTimeline.formatDuration (Some 3725000) = "1h 2m".
Proof. repeat split. Qed.



(** * Further properties of the views *)

(** ** The further views on sample data *)

Example search_prompts_on_sample :
  HistoryParser.searchPromptsHandler Samples.getTime
    HistorySamples.toISOString HistorySamples.history HistorySamples.args
  = successResponse
      {| HistoryParser.Found.results :=
           [ {| HistoryParser.SearchPromptResult.prompt := "fix the tests";
                HistoryParser.SearchPromptResult.timestamp := Samples.t5;
                HistoryParser.SearchPromptResult.project := "/work/app" |};
             {| HistoryParser.SearchPromptResult.prompt := "Fix the parser";
                HistoryParser.SearchPromptResult.timestamp := Samples.t0;
                HistoryParser.SearchPromptResult.project := "/work/app" |} ];
         HistoryParser.Found.total := 2 |}.
Proof. reflexivity. Qed.

Example find_sessions_by_file_on_sample :
  FindSessionsByFile.findSessionsByFileHandler Samples.getTime
    (Samples.rootOf MoreSamples.readsFile) (MoreSamples.fileArgs "B.TXT")
  = successResponse
      {| FindSessionsByFile.Found.results :=
           [ {| FindSessionsByFile.FileAccessResult.sessionId := "s1";
                FindSessionsByFile.FileAccessResult.project := "repo";
                FindSessionsByFile.FileAccessResult.summary := None;
                FindSessionsByFile.FileAccessResult.filePath := "/a/b.txt";
                FindSessionsByFile.FileAccessResult.operation := "Read";
                FindSessionsByFile.FileAccessResult.timestamp := Samples.t5;
                FindSessionsByFile.FileAccessResult.gitBranch := None |} ];
         FindSessionsByFile.Found.total := 1;
         FindSessionsByFile.Found.searchedFile := "B.TXT" |}.
Proof. reflexivity. Qed.

Example tool_usage_stats_on_sample :
  forall toFixed1 : Z -> Z -> string,
    GetToolUsageStats.getToolUsageStatsHandler Samples.getTime 1704067205000
      toFixed1 (Samples.rootOf MoreSamples.spawning) MoreSamples.usageArgs
    = successResponse
        {| GetToolUsageStats.ToolUsageStats.totalToolCalls := 3;
           GetToolUsageStats.ToolUsageStats.uniqueTools := 1;
           GetToolUsageStats.ToolUsageStats.sessionsAnalyzed := 1;
           GetToolUsageStats.ToolUsageStats.toolUsage :=
             [ {| GetToolUsageStats.ToolUsage.name := "Task";
                  GetToolUsageStats.ToolUsage.count := 3 |} ];
           GetToolUsageStats.ToolUsageStats.topTools :=
             [ {| GetToolUsageStats.TopTool.name := "Task";
                  GetToolUsageStats.TopTool.count := 3;
                  GetToolUsageStats.TopTool.percentage :=
                    toFixed1 3 3 ++ "%" |} ];
           GetToolUsageStats.ToolUsageStats.toolsByCategory :=
             [("Execution", ["Task"])] |}.
Proof. reflexivity. Qed.

Example categorizeTools_on_sample :
  GetToolUsageStats.categorizeTools ["Read"; "Bash"; "mcp__x"; "Read"; "Edit"]
  = [("File Operations", ["Read"; "Edit"]); ("Execution", ["Bash"]);
     ("MCP & Other", ["mcp__x"])].
Proof. reflexivity. Qed.

Example project_path_with_dash_is_not_recovered :
  ProjectPaths.decode (ProjectPaths.encodeProjectPath "/work/my-app")
  = "work/my/app".
Proof. reflexivity. Qed.

(** ** The session view: what the loop of [getSessionInfo] keeps *)

Section FoldFacts.

Context {V : Type}.
Variable step : V -> Fs.Line -> V.

(** Blank and malformed lines leave the variables of a loop alone. *)
Hypothesis step_skips : forall v line,
  Derived.isJson line = false -> step v line = v.


Variable get : V -> option string.
Variable field : SessionMessage.t -> option string.
Variable p : SessionMessage.t -> bool.

Section First.

(** A variable set once, from the first record that carries a value. *)
Hypothesis step_first : forall v line,
  get (step v line)
  = match line with
    | Fs.JsonLine msg =>
        if p msg then Vars.stampStart (get v) (field msg) else get v
    | _ => get v
    end.

Lemma fold_first lines : forall v,
  Js.orUndefined (get v) = get v ->
  get (fold_left step lines v)
  = if Js.truthyOpt (get v) then get v else Derived.firstOf field p lines.
Proof.
  induction lines as [|line lines IH]; intros v Hv; simpl.
  - unfold Js.orUndefined in Hv.
    destruct (Js.truthyOpt (get v)); [reflexivity|now symmetry].
  - rewrite IH, step_first.
    + destruct line as [| |msg]; try reflexivity.
      destruct (p msg); simpl; [|reflexivity].
      unfold Vars.stampStart.
      destruct (Js.truthyOpt (field msg)) eqn:Ets;
        destruct (Js.truthyOpt (get v)) eqn:Ev; simpl;
        rewrite ?Ets, ?Ev; reflexivity.
    + rewrite step_first.
      destruct line as [| |msg]; try assumption.
      destruct (p msg); [|assumption].
      now apply stampStart_normal.
Qed.

End First.

Section Last.

(** A variable overwritten by every record that carries a value. *)
Hypothesis step_last : forall v line,
  get (step v line)
  = match line with
    | Fs.JsonLine msg =>
        if p msg then Vars.stampLast (get v) (field msg) else get v
    | _ => get v
    end.

Lemma fold_last lines : forall v,
  get (fold_left step lines v)
  = match Derived.lastOf field p lines with
    | Some x => Some x
    | None => get v
    end.
Proof.
  induction lines as [|line lines IH]; intro v; simpl; [reflexivity|].
  rewrite IH, step_last.
  destruct line as [| |msg]; try reflexivity.
  destruct (Derived.lastOf field p lines) as [x|]; [reflexivity|].
  destruct (p msg); simpl; [|reflexivity].
  unfold Vars.stampLast.
  destruct (Js.truthyOpt (field msg)) eqn:E; [|reflexivity].
  destruct (field msg); [reflexivity|discriminate].
Qed.

End Last.

End FoldFacts.

Lemma firstBranch_stampStart (g b : option string) :
  Vars.firstBranch g b = Vars.stampStart g b.
Proof.
  unfold Vars.firstBranch, Vars.stampStart.
  destruct (Js.truthyOpt b); destruct (Js.truthyOpt g); reflexivity.
Qed.

Lemma firstOf_timestamp p lines :
  Derived.firstOf SessionMessage.timestamp p lines
  = Spec.firstTimestamp p lines.
Proof.
  induction lines as [|[| |msg] lines IH]; simpl; try assumption.
  - reflexivity.
  - now rewrite IH.
Qed.

Lemma lastOf_normal field p lines :
  Js.orUndefined (Derived.lastOf field p lines) = Derived.lastOf field p lines.
Proof.
  induction lines as [|[| |msg] lines IH]; simpl; try assumption.
  - reflexivity.
  - destruct (Derived.lastOf field p lines) as [x|]; [exact IH|].
    destruct (p msg); simpl; [|reflexivity].
    destruct (Js.truthyOpt (field msg)) eqn:E; [|reflexivity].
    unfold Js.orUndefined. now rewrite E.
Qed.

Lemma firstOf_normal field p lines :
  Js.orUndefined (Derived.firstOf field p lines)
  = Derived.firstOf field p lines.
Proof.
  induction lines as [|[| |msg] lines IH]; simpl; try assumption.
  - reflexivity.
  - destruct (p msg); simpl; [|assumption].
    destruct (Js.truthyOpt (field msg)) eqn:E; [|assumption].
    unfold Js.orUndefined. now rewrite E.
Qed.

(** There is a last value exactly when there is a first one. *)
Lemma lastOf_none field p lines :
  Derived.lastOf field p lines = None
  <-> Derived.firstOf field p lines = None.
Proof.
  induction lines as [|[| |msg] lines IH]; simpl; try assumption.
  - tauto.
  - destruct (p msg && Js.truthyOpt (field msg))%bool eqn:E.
    + destruct (Derived.lastOf field p lines); [split; [discriminate|]|].
      * intro H. apply andb_true_iff in E. destruct E as [_ E].
        rewrite H in E. discriminate.
      * split; intro H; rewrite H in E;
          apply andb_true_iff in E; destruct E as [_ E]; discriminate.
    + destruct (Derived.lastOf field p lines); [|tauto].
      split; [discriminate|]. intro H. apply IH in H. discriminate.
Qed.


Lemma infoStep_last v line :
  InfoVars.lastActivityAt (SessionParser.infoStep v line)
  = match line with
    | Fs.JsonLine msg =>
        if SessionMessage.isUserOrAssistant msg
        then Vars.stampLast (InfoVars.lastActivityAt v)
                            (SessionMessage.timestamp msg)
        else InfoVars.lastActivityAt v
    | _ => InfoVars.lastActivityAt v
    end.
Proof.
  destruct line as [| |msg]; try reflexivity. simpl.
  now destruct (SessionMessage.isUserOrAssistant msg).
Qed.

Lemma infoStep_branch v line :
  InfoVars.gitBranch (SessionParser.infoStep v line)
  = match line with
    | Fs.JsonLine msg =>
        if SessionMessage.isUserOrAssistant msg
        then Vars.stampStart (InfoVars.gitBranch v)
                             (SessionMessage.gitBranch msg)
        else InfoVars.gitBranch v
    | _ => InfoVars.gitBranch v
    end.
Proof.
  destruct line as [| |msg]; try reflexivity. simpl.
  destruct (SessionMessage.isUserOrAssistant msg); [|reflexivity].
  apply firstBranch_stampStart.
Qed.

Lemma lastSummary_stampLast summary msg :
  Vars.lastSummary summary msg
  = if Derived.isSummaryRecord msg
    then Vars.stampLast summary (SessionMessage.summary msg)
    else summary.
Proof.
  unfold Vars.lastSummary, SessionMessage.isSummary, Derived.isSummaryRecord,
    Vars.stampLast.
  destruct (SessionMessage.type msg =? "summary")%string; [|reflexivity].
  now destruct (Js.truthyOpt (SessionMessage.summary msg)).
Qed.

Lemma infoStep_summary v line :
  InfoVars.summary (SessionParser.infoStep v line)
  = match line with
    | Fs.JsonLine msg =>
        if Derived.isSummaryRecord msg
        then Vars.stampLast (InfoVars.summary v) (SessionMessage.summary msg)
        else InfoVars.summary v
    | _ => InfoVars.summary v
    end.
Proof.
  destruct line as [| |msg]; try reflexivity. simpl.
  rewrite lastSummary_stampLast.
  now destruct (SessionMessage.isUserOrAssistant msg).
Qed.

Lemma info_messageCount lines : forall v,
  InfoVars.messageCount (fold_left SessionParser.infoStep lines v)
  = InfoVars.messageCount v
    + Derived.countRecords SessionMessage.isUserOrAssistant lines.
Proof.
  induction lines as [|line lines IH]; intro v;
    cbn [fold_left Derived.countRecords]; [lia|].
  rewrite IH. destruct line as [| |msg]; cbn [SessionParser.infoStep]; try lia.
  destruct (SessionMessage.isUserOrAssistant msg);
    cbn [InfoVars.messageCount]; lia.
Qed.

(** The variables of the loop of [getSessionInfo] at the end of a
    file. *)
Lemma info_vars (f : Fs.SessionFile) :
  let v := fold_left SessionParser.infoStep (Fs.lines f) InfoVars.init in
  InfoVars.startedAt v
  = Derived.firstOf SessionMessage.timestamp SessionMessage.isUserOrAssistant
                    (Fs.lines f)
  /\ InfoVars.lastActivityAt v
     = Derived.lastOf SessionMessage.timestamp SessionMessage.isUserOrAssistant
                      (Fs.lines f)
  /\ InfoVars.gitBranch v
     = Derived.firstOf SessionMessage.gitBranch
                       SessionMessage.isUserOrAssistant (Fs.lines f)
  /\ InfoVars.summary v
     = Derived.lastOf SessionMessage.summary Derived.isSummaryRecord
                      (Fs.lines f)
  /\ InfoVars.messageCount v
     = Derived.countRecords SessionMessage.isUserOrAssistant (Fs.lines f).
Proof.
  cbv zeta. split; [|split; [|split; [|split]]].
  - rewrite info_started. symmetry. apply firstOf_timestamp.
  - rewrite (fold_last _ _ _ _ infoStep_last). simpl.
    now destruct (Derived.lastOf _ _ _).
  - now rewrite (fold_first _ _ _ _ infoStep_branch).
  - rewrite (fold_last _ _ _ _ infoStep_summary). simpl.
    now destruct (Derived.lastOf _ _ _).
  - rewrite info_messageCount. simpl. lia.
Qed.

Lemma getSessionInfo_unfold f sid proj info :
  SessionParser.getSessionInfo f sid proj = Some info ->
  let v := fold_left SessionParser.infoStep (Fs.lines f) InfoVars.init in
  exists startedAt,
    InfoVars.startedAt v = Some startedAt
    /\ Js.truthy startedAt = true
    /\ info
       = {| SessionInfo.sessionId := sid;
            SessionInfo.project := proj;
            SessionInfo.summary := Js.orUndefined (InfoVars.summary v);
            SessionInfo.messageCount := InfoVars.messageCount v;
            SessionInfo.startedAt := startedAt;
            SessionInfo.lastActivityAt :=
              Js.orElse (InfoVars.lastActivityAt v) startedAt;
            SessionInfo.sizeBytes := 0;
            SessionInfo.gitBranch := Js.orUndefined (InfoVars.gitBranch v) |}.
Proof.
  unfold SessionParser.getSessionInfo. cbv zeta.
  destruct (InfoVars.startedAt _) as [s|]; [|discriminate].
  destruct (Js.truthy s) eqn:E; [|discriminate].
  intro H. inversion H. now exists s.
Qed.

(** X1. For a file that [getSessionInfo] accepts, [lastActivityAt] is
    the timestamp of the last user or assistant record that carries
    one; a file is rejected exactly when no user or assistant record
    carries a timestamp. *)
Theorem session_info_last_activity :
  forall (f : Fs.SessionFile) (sid proj : string),
    match SessionParser.getSessionInfo f sid proj with
    | Some info =>
        Some (SessionInfo.lastActivityAt info)
        = Derived.lastOf SessionMessage.timestamp
                         SessionMessage.isUserOrAssistant (Fs.lines f)
    | None =>
        Derived.lastOf SessionMessage.timestamp
                       SessionMessage.isUserOrAssistant (Fs.lines f) = None
    end.
Proof.
  intros f sid proj.
  destruct (info_vars f) as [Hs [Hl _]]. cbv zeta in Hs, Hl.
  destruct (SessionParser.getSessionInfo f sid proj) as [info|] eqn:E.
  - apply getSessionInfo_unfold in E. cbv zeta in E.
    destruct E as [s [Es [Ht ->]]]. cbn [SessionInfo.lastActivityAt].
    rewrite Hl.
    pose proof (lastOf_normal SessionMessage.timestamp
                  SessionMessage.isUserOrAssistant (Fs.lines f)) as Hn.
    pose proof (lastOf_none SessionMessage.timestamp
                  SessionMessage.isUserOrAssistant (Fs.lines f)) as Hnone.
    destruct (Derived.lastOf _ _ _) as [x|].
    + unfold Js.orUndefined in Hn. simpl in Hn.
      unfold Js.orElse. destruct (Js.truthy x); [reflexivity|discriminate].
    + rewrite <- Hs, Es in Hnone. destruct Hnone as [Hnone _].
      specialize (Hnone eq_refl). discriminate.
  - apply lastOf_none. rewrite <- Hs.
    pose proof (getSessionInfo_started f sid proj) as H.
    rewrite E in H. simpl in H. rewrite info_started. now symmetry.
Qed.

(** X2. For a file that [getSessionInfo] accepts, [gitBranch] is the
    first non-empty branch of a user or assistant record (later
    branches are ignored), [summary] is the text of the last summary
    record with a non-empty text, and both are absent when there is no
    such record. *)
Theorem session_info_branch_and_summary :
  forall (f : Fs.SessionFile) (sid proj : string),
    match SessionParser.getSessionInfo f sid proj with
    | Some info =>
        SessionInfo.gitBranch info
        = Derived.firstOf SessionMessage.gitBranch
                          SessionMessage.isUserOrAssistant (Fs.lines f)
        /\ SessionInfo.summary info
           = Derived.lastOf SessionMessage.summary Derived.isSummaryRecord
                            (Fs.lines f)
    | None => True
    end.
Proof.
  intros f sid proj.
  destruct (info_vars f) as [_ [_ [Hb [Hsum _]]]]. cbv zeta in Hb, Hsum.
  destruct (SessionParser.getSessionInfo f sid proj) as [info|] eqn:E;
    [|exact I].
  apply getSessionInfo_unfold in E. cbv zeta in E.
  destruct E as [s [_ [_ ->]]].
  cbn [SessionInfo.gitBranch SessionInfo.summary].
  rewrite Hb, Hsum. split; [apply firstOf_normal|apply lastOf_normal].
Qed.

(** ** [get_session] and the session view *)







(** ** Lines that are blank or fail to decode *)










(** ** Consecutive pages *)








(** ** Project paths *)

Lemma dashesToSlashes_encode p :
  ProjectPaths.without "-" p ->
  Js.dashesToSlashes (ProjectPaths.encodeProjectPath p) = p.
Proof.
  induction p as [|c p IH]; intros H; [reflexivity|].
  destruct H as [Hc Hp]. cbn [ProjectPaths.encodeProjectPath Js.dashesToSlashes].
  rewrite (IH Hp). f_equal.
  destruct (Ascii.eqb c "/") eqn:E.
  - apply Ascii.eqb_eq in E. now subst c.
  - destruct (Ascii.eqb c "-") eqn:E'; [|reflexivity].
    apply Ascii.eqb_eq in E'. contradiction.
Qed.

Lemma dashesToSlashes_without s :
  ProjectPaths.without "-" (Js.dashesToSlashes s).
Proof.
  induction s as [|c s IH]; [exact I|].
  cbn [Js.dashesToSlashes ProjectPaths.without]. split; [|exact IH].
  destruct (Ascii.eqb c "-") eqn:E; [discriminate|].
  now apply Ascii.eqb_neq in E.
Qed.

(** X6. [encodeProjectPath] followed by the decoding that the views
    apply to a directory name gives back an absolute path that holds no
    dash. *)
Theorem decode_inverts_encode_without_dashes :
  forall p : string,
    ProjectPaths.without "-" p ->
    ProjectPaths.decode (ProjectPaths.encodeProjectPath (String "/" p)) = p.
Proof.
  intros p H. unfold ProjectPaths.decode.
  cbn [ProjectPaths.encodeProjectPath Ascii.eqb Bool.eqb Js.stripLeadingDash].
  now apply dashesToSlashes_encode.
Qed.

Lemma decode_inverts_encode_without_dashes_witness :
  ProjectPaths.without "-" "work/app"
  /\ ProjectPaths.decode (ProjectPaths.encodeProjectPath "/work/app")
     = "work/app".
Proof.
  assert (H : ProjectPaths.without "-" "work/app")
    by (cbn; repeat split; discriminate).
  exact (conj H (decode_inverts_encode_without_dashes "work/app" H)).
Defined.

(** X7. The project path that a view shows for a directory never holds
    a dash, whatever the directory is called: every dash of the name
    has become a slash, and the path is one character shorter than the
    name exactly when the name starts with a dash. *)
Theorem decoded_path_has_no_dash :
  forall projectDir : string,
    ProjectPaths.without "-" (ProjectPaths.decode projectDir)
    /\ String.length (ProjectPaths.decode projectDir)
       = (if Js.startsWith projectDir "-"
          then String.length projectDir - 1
          else String.length projectDir)%nat.
Proof.
  intros d. split; [apply dashesToSlashes_without|].
  assert (L : forall s, String.length (Js.dashesToSlashes s) = String.length s).
  { induction s as [|c s IH]; [reflexivity|].
    cbn [Js.dashesToSlashes String.length]. now rewrite IH. }
  unfold ProjectPaths.decode. rewrite L.
  destruct d as [|c d]; [reflexivity|].
  unfold Js.startsWith. cbn [String.prefix Js.stripLeadingDash].
  destruct (ascii_dec "-" c) as [E|E].
  - subst c. destruct d; reflexivity.
  - destruct c as [[] [] [] [] [] [] [] []]; try reflexivity.
    exfalso. apply E. reflexivity.
Qed.

(** ** The prompt history *)

Lemma firstn_incl {A : Type} (n : nat) (l : list A) (x : A) :
  In x (firstn n l) -> In x l.
Proof.
  revert l. induction n as [|n IH]; intros [|y l]; cbn [firstn In];
    try tauto.
  intros [E|H]; [now left|right; now apply IH].
Qed.

Section HistoryFacts.

Variable getTime : string -> Js.num.
Variable toISOString : Z -> option string.

Let scan := HistoryParser.scan getTime toISOString.
Let matches := HistoryParser.matches getTime toISOString.




End HistoryFacts.


(** ** Sorting and slicing *)

Section SortFacts.

Context {A : Type}.
Variable cmp : A -> A -> Js.num.

Lemma insertBy_perm (x : A) (l : list A) :
  Permutation (Js.insertBy cmp x l) (x :: l).
Proof.
  induction l as [|y l IH]; cbn [Js.insertBy]; [reflexivity|].
  destruct (Js.lt (cmp x y) (Some 0)); [reflexivity|].
  rewrite IH. apply perm_swap.
Qed.

Lemma sort_perm (l : list A) : Permutation (Js.sort cmp l) l.
Proof.
  unfold Js.sort.
  assert (H : forall acc,
             Permutation (fold_left (fun acc x => Js.insertBy cmp x acc) l acc)
                         (acc ++ l)).
  { induction l as [|x l IH]; intro acc; cbn [fold_left].
    - now rewrite app_nil_r.
    - rewrite IH, insertBy_perm. apply Permutation_middle. }
  exact (H []).
Qed.

Lemma sort_In (l : list A) (x : A) : In x (Js.sort cmp l) <-> In x l.
Proof.
  split; apply Permutation_in; [|symmetry]; apply sort_perm.
Qed.

(** A comparator that subtracts keys sorts by decreasing key. *)
Variable key : A -> Z.
Hypothesis cmp_key : forall a b, cmp a b = Some (key b - key a).

Lemma insertBy_sorted (x : A) (l : list A) :
  StronglySorted (fun a b => key b <= key a) l ->
  StronglySorted (fun a b => key b <= key a) (Js.insertBy cmp x l).
Proof.
  induction l as [|y l IH]; intro S; cbn [Js.insertBy].
  - constructor; [constructor|constructor].
  - rewrite cmp_key. cbn [Js.lt].
    inversion S as [|y' l' Sl Hy]; subst.
    destruct (Z.ltb_spec (key y - key x) 0) as [L|L].
    + constructor; [exact S|].
      constructor; [lia|].
      rewrite Forall_forall in *. intros z Hz. specialize (Hy z Hz). lia.
    + constructor; [now apply IH|].
      rewrite Forall_forall in *. intros z Hz.
      apply (Permutation_in _ (insertBy_perm x l)) in Hz.
      destruct Hz as [<-|Hz]; [lia|now apply Hy].
Qed.

Lemma sort_sorted (l : list A) :
  StronglySorted (fun a b => key b <= key a) (Js.sort cmp l).
Proof.
  unfold Js.sort.
  assert (H : forall acc,
             StronglySorted (fun a b => key b <= key a) acc ->
             StronglySorted (fun a b => key b <= key a)
               (fold_left (fun acc x => Js.insertBy cmp x acc) l acc)).
  { induction l as [|x l IH]; intros acc S; cbn [fold_left]; [exact S|].
    apply IH. now apply insertBy_sorted. }
  apply H. constructor.
Qed.

End SortFacts.

Lemma skipn_incl {A : Type} (n : nat) (l : list A) (x : A) :
  In x (skipn n l) -> In x l.
Proof.
  revert l. induction n as [|n IH]; intros [|y l]; cbn [skipn In];
    try tauto.
  intro H. right. now apply IH.
Qed.

Lemma slice_incl {A : Type} (l : list A) (a b : Z) (x : A) :
  In x (Js.slice l a b) -> In x l.
Proof.
  unfold Js.slice. intro H. apply firstn_incl in H. now apply skipn_incl in H.
Qed.





Lemma firstn_sorted {A : Type} (R : A -> A -> Prop) (n : nat) (l : list A) :
  StronglySorted R l -> StronglySorted R (firstn n l).
Proof.
  revert l. induction n as [|n IH]; intros l S; [constructor|].
  destruct S as [|x l S H]; cbn [firstn]; constructor; [now apply IH|].
  rewrite Forall_forall in *. intros y Hy. apply H.
  now apply firstn_incl in Hy.
Qed.

Lemma skipn_sorted {A : Type} (R : A -> A -> Prop) (n : nat) (l : list A) :
  StronglySorted R l -> StronglySorted R (skipn n l).
Proof.
  revert l. induction n as [|n IH]; intros l S; [exact S|].
  destruct S as [|x l S H]; cbn [skipn]; [constructor|now apply IH].
Qed.

Lemma sorted_impl {A : Type} (R R' : A -> A -> Prop) (l : list A) :
  (forall a b, R a b -> R' a b) ->
  StronglySorted R l -> StronglySorted R' l.
Proof.
  intros HR. induction 1 as [|x l S IH H]; constructor; [exact IH|].
  rewrite Forall_forall in *. intros y Hy. apply HR. now apply H.
Qed.

Lemma slice_sorted {A : Type} (R : A -> A -> Prop) (l : list A) (a b : Z) :
  StronglySorted R l -> StronglySorted R (Js.slice l a b).
Proof.
  intro S. unfold Js.slice. now apply firstn_sorted, skipn_sorted.
Qed.

(** ** The lookup of sessions by file *)

Section FileLookupFacts.

Variable args : FindSessionsByFile.Args.

Let limit := SessionParser.orDefault (FindSessionsByFile.limit args) 20.
Let operation := SessionParser.orDefault (FindSessionsByFile.operation args) "all".






End FileLookupFacts.


(** ** Tool usage statistics *)

Lemma add_In (set : list string) (x t : string) :
  In t (CompareSessions.add set x) <-> In t set \/ t = x.
Proof.
  unfold CompareSessions.add.
  destruct (Counts.has set x) eqn:H.
  - apply has_In in H. split; [now left|]. intros [Hin| ->]; assumption.
  - rewrite in_app_iff. cbn [In]. intuition congruence.
Qed.

Lemma add_NoDup (set : list string) (x : string) :
  NoDup set -> NoDup (CompareSessions.add set x).
Proof.
  intro Hd. unfold CompareSessions.add.
  destruct (Counts.has set x) eqn:H; [exact Hd|].
  apply (Permutation_NoDup (Permutation_cons_append _ _)).
  constructor; [|exact Hd].
  intro Hin. apply has_In in Hin. congruence.
Qed.

Lemma fold_add_In (l acc : list string) (t : string) :
  In t (fold_left CompareSessions.add l acc) <-> In t acc \/ In t l.
Proof.
  revert acc. induction l as [|x l IH]; intro acc; cbn [fold_left In].
  - tauto.
  - rewrite IH, add_In. intuition congruence.
Qed.

Lemma fold_add_NoDup (l acc : list string) :
  NoDup acc -> NoDup (fold_left CompareSessions.add l acc).
Proof.
  revert acc. induction l as [|x l IH]; intros acc Hd; [exact Hd|].
  cbn [fold_left]. now apply IH, add_NoDup.
Qed.

Lemma unique_In (l : list string) (t : string) :
  In t (GetToolUsageStats.unique l) <-> In t l.
Proof.
  unfold GetToolUsageStats.unique. rewrite fold_add_In. cbn [In]. tauto.
Qed.

Lemma unique_NoDup (l : list string) : NoDup (GetToolUsageStats.unique l).
Proof. apply fold_add_NoDup. constructor. Qed.

Lemma has_flat_map (cats : list (string * list string)) (t : string) :
  Counts.has (flat_map snd cats) t = true
  <-> exists entry, In entry cats /\ Counts.has (snd entry) t = true.
Proof.
  rewrite has_In, in_flat_map. split; intros [e [H1 H2]]; exists e;
    (split; [exact H1|]); now apply has_In.
Qed.

Lemma categoryOf_listed (c : string) (cts : list string) (t : string) :
  In (c, cts) GetToolUsageStats.TOOL_CATEGORIES ->
  In t cts -> Derived.categoryOf t = c.
Proof.
  unfold GetToolUsageStats.TOOL_CATEGORIES. cbn [In].
  intros Hc Ht.
  repeat (destruct Hc as [Hc|Hc];
          [injection Hc as <- <-; cbn [In] in Ht;
           repeat (destruct Ht as [<-|Ht]; [reflexivity|]); contradiction|]).
  contradiction.
Qed.

Lemma categoryOf_other (t : string) :
  Counts.has (flat_map snd GetToolUsageStats.TOOL_CATEGORIES) t = false ->
  Derived.categoryOf t = "MCP & Other".
Proof.
  intro H. unfold Derived.categoryOf.
  destruct (find _ _) as [entry|] eqn:F; [|reflexivity].
  apply find_some in F.
  assert (Counts.has (flat_map snd GetToolUsageStats.TOOL_CATEGORIES) t = true)
    by (apply has_flat_map; now exists entry).
  congruence.
Qed.

(** X10. [categorizeTools] files every tool it is given under exactly
    one category: the category of [TOOL_CATEGORIES] that lists it, or
    [MCP & Other] when none does.  No category of the result is empty
    or occurs twice, and no tool is listed twice in a category. *)
Theorem categorizeTools_partitions_the_tools :
  forall tools : list string,
    (forall t,
        In t tools <->
        exists ts,
          In (Derived.categoryOf t, ts)
             (GetToolUsageStats.categorizeTools tools)
          /\ In t ts)
    /\ (forall c ts,
          In (c, ts) (GetToolUsageStats.categorizeTools tools) ->
          ts <> [] /\ NoDup ts
          /\ forall t, In t ts -> In t tools /\ Derived.categoryOf t = c)
    /\ NoDup (map fst (GetToolUsageStats.categorizeTools tools)).
Proof.
  intro tools.
  set (entryOf := fun entry : string * list string =>
         match filter (Counts.has (snd entry)) tools with
         | [] => []
         | matching => [(fst entry, GetToolUsageStats.unique matching)]
         end).
  set (other := filter (fun t => negb (Counts.has
                  (flat_map snd GetToolUsageStats.TOOL_CATEGORIES) t)) tools).
  assert (E : GetToolUsageStats.categorizeTools tools
              = (flat_map entryOf GetToolUsageStats.TOOL_CATEGORIES
                 ++ match other with
                    | [] => []
                    | _ => [("MCP & Other", GetToolUsageStats.unique other)]
                    end)%list).
  { unfold GetToolUsageStats.categorizeTools. cbv zeta. fold entryOf other.
    destruct other; [now rewrite app_nil_r|reflexivity]. }
  assert (Hin : forall c ts,
             In (c, ts) (GetToolUsageStats.categorizeTools tools) <->
             (exists cts, In (c, cts) GetToolUsageStats.TOOL_CATEGORIES
                          /\ filter (Counts.has cts) tools <> []
                          /\ ts = GetToolUsageStats.unique
                                    (filter (Counts.has cts) tools))
             \/ (c = "MCP & Other" /\ other <> []
                 /\ ts = GetToolUsageStats.unique other)).
  { intros c ts. rewrite E, in_app_iff, in_flat_map. split.
    - intros [[[c' cts] [Hc He]]|Ho].
      + left. exists cts. subst entryOf. cbn [fst snd] in He.
        destruct (filter (Counts.has cts) tools) as [|x l] eqn:F;
          [contradiction|].
        destruct He as [He|[]]. injection He as <- <-.
        split; [exact Hc|]. split; [discriminate|reflexivity].
      + right. destruct other as [|x l]; [contradiction|].
        destruct Ho as [Ho|[]]. injection Ho as <- <-.
        split; [reflexivity|]. split; [discriminate|reflexivity].
    - intros [[cts [Hc [Hne ->]]]|[-> [Hne ->]]].
      + left. exists (c, cts). split; [exact Hc|]. subst entryOf.
        cbn [fst snd].
        destruct (filter (Counts.has cts) tools) as [|x l];
          [contradiction|now left].
      + right. destruct other as [|x l]; [contradiction|now left]. }
  split; [|split].
  - intro t. split.
    + intro Ht.
      destruct (Counts.has (flat_map snd GetToolUsageStats.TOOL_CATEGORIES) t)
        eqn:H.
      * pose proof H as H'. apply has_flat_map in H'.
        destruct H' as [[c cts] [Hc Hh]]. cbn [snd] in Hh.
        assert (Hf : In t (filter (Counts.has cts) tools))
          by (apply filter_In; split; assumption).
        exists (GetToolUsageStats.unique (filter (Counts.has cts) tools)).
        split; [|now rewrite unique_In].
        apply Hin. left. exists cts.
        rewrite (categoryOf_listed c cts t Hc) by now apply has_In.
        split; [exact Hc|]. split; [|reflexivity].
        intro N. rewrite N in Hf. contradiction.
      * assert (Hf : In t other)
          by (subst other; apply filter_In; split;
              [assumption|now rewrite H]).
        exists (GetToolUsageStats.unique other).
        split; [|now rewrite unique_In].
        apply Hin. right. rewrite (categoryOf_other t H).
        split; [reflexivity|]. split; [|reflexivity].
        intro N. rewrite N in Hf. contradiction.
    + intros [ts [Hc Ht]]. apply Hin in Hc.
      destruct Hc as [[cts [_ [_ ->]]]|[_ [_ ->]]];
        rewrite unique_In in Ht; subst other; rewrite filter_In in Ht; tauto.
  - intros c ts Hc. apply Hin in Hc.
    destruct Hc as [[cts [Hc [Hne ->]]]|[-> [Hne ->]]].
    + split; [|split; [apply unique_NoDup|]].
      * intro N. apply Hne.
        destruct (filter (Counts.has cts) tools) as [|x l]; [reflexivity|].
        assert (In x (GetToolUsageStats.unique (x :: l)))
          by (rewrite unique_In; now left).
        rewrite N in H. contradiction.
      * intros t Ht. rewrite unique_In, filter_In in Ht.
        destruct Ht as [Ht Hh]. split; [exact Ht|].
        apply (categoryOf_listed c cts t Hc). now apply has_In.
    + split; [|split; [apply unique_NoDup|]].
      * intro N. apply Hne. destruct other as [|x l]; [reflexivity|].
        assert (In x (GetToolUsageStats.unique (x :: l)))
          by (rewrite unique_In; now left).
        rewrite N in H. contradiction.
      * intros t Ht. rewrite unique_In in Ht. subst other.
        rewrite filter_In in Ht. destruct Ht as [Ht Hh]. split; [exact Ht|].
        apply categoryOf_other. now apply negb_true_iff in Hh.
  - rewrite E, map_app. subst entryOf.
    unfold GetToolUsageStats.TOOL_CATEGORIES. cbn [flat_map fst snd].
    repeat match goal with
           | |- context [match filter ?p tools with _ => _ end] =>
               destruct (filter p tools)
           end;
      destruct other; cbn [List.app map fst];
      repeat (constructor; [cbn [In]; intuition discriminate|]);
      constructor.
Qed.




Section UsageFacts.

Variable getTime : string -> Js.num.
Variable now : Z.
Variable args : GetToolUsageStats.Args.

Let limit := SessionParser.orDefault (GetToolUsageStats.limit args) 10.





End UsageFacts.







(** ** Tables of counts

    A table is read and written with keys that are tool names, agent
    types and event kinds; a key that is the name of a property that
    every object inherits is outside the model, and so is the place
    that [Object.keys] gives to a key that reads as an integer. *)







Section BumpFacts.

Context {A : Type}.
Variable keyOf : A -> string.






End BumpFacts.


(** ** Agent activity *)



(** ** The statistics of [compare_sessions] *)










(** ** The counters of the timeline *)










(** ** The list of sessions *)

Section ListFacts.

Variable getTime : string -> Js.num.
Variable now : Z.
Variable options : SessionParser.ListOptions.t.

Lemma getSessionInfo_fields f sessionId projectPath info :
  SessionParser.getSessionInfo f sessionId projectPath = Some info ->
  SessionInfo.sessionId info = sessionId
  /\ SessionInfo.project info = projectPath
  /\ Js.truthy (SessionInfo.startedAt info) = true.
Proof.
  unfold SessionParser.getSessionInfo. cbv zeta.
  destruct (InfoVars.startedAt _) as [startedAt|];
    [|discriminate].
  destruct (Js.truthy startedAt) eqn:T; [|discriminate].
  intro E. injection E as <-. repeat split. exact T.
Qed.

Lemma listFiles_ok projectPath files sessions :
  (Js.truthyOpt (SessionParser.ListOptions.project options) = true ->
   Js.includes projectPath
     (Js.orElse (SessionParser.ListOptions.project options) "") = true) ->
  Forall (Derived.listedOk getTime now options) sessions ->
  Forall (Derived.listedOk getTime now options)
         (SessionParser.listFiles getTime now options projectPath files
                                  sessions).
Proof.
  intro Hp. revert sessions.
  induction files as [|[file f] files IH]; intros sessions H;
    cbn [SessionParser.listFiles]; [exact H|].
  destruct (Fs.notASession file); [now apply IH|].
  destruct (SessionParser.getSessionInfo f (Fs.sessionIdOf file) projectPath)
    as [info|] eqn:E; [|now apply IH].
  cbv zeta.
  destruct (Js.lt _ _) eqn:L; cbn [orb]; [now apply IH|].
  destruct (Js.gt _ _) eqn:G; [now apply IH|].
  apply getSessionInfo_fields in E. destruct E as [_ [Ep Et]].
  assert (H' : Forall (Derived.listedOk getTime now options)
                 (sessions ++ [SessionInfo.withSize info (Fs.size f)])).
  { apply Forall_app. split; [exact H|].
    constructor; [|constructor].
    unfold Derived.listedOk, SessionInfo.withSize.
    cbn [SessionInfo.project SessionInfo.startedAt].
    rewrite Ep. repeat split; assumption. }
  destruct (_ >=? _); [exact H'|now apply IH].
Qed.

Lemma listDirs_ok dirs sessions :
  Forall (Derived.listedOk getTime now options) sessions ->
  match SessionParser.listDirs getTime now options dirs sessions with
  | Return sessions' => Forall (Derived.listedOk getTime now options) sessions'
  | Throw _ => True
  end.
Proof.
  revert sessions. induction dirs as [|d dirs IH]; intros sessions H;
    cbn [SessionParser.listDirs]; [exact H|].
  unfold SessionParser.skipProject at 1.
  destruct (Js.truthyOpt (SessionParser.ListOptions.project options)) eqn:T;
    cbn [andb].
  - destruct (Js.includes (Fs.projectPath d) _) eqn:Hi; cbn [negb];
      [|now apply IH].
    destruct (Fs.listing d) as [e|files]; [exact I|].
    apply IH. apply listFiles_ok; [intros _; exact Hi|exact H].
  - destruct (Fs.listing d) as [e|files]; [exact I|].
    apply IH. apply listFiles_ok; [congruence|exact H].
Qed.

End ListFacts.

(** X15. Every session that [list_sessions] returns lies in a project
    that holds the [project] filter and started neither before [since]
    nor after [until]; a session whose start is no date passes both
    tests.  When [sortBy] is not [date] the sessions come by size:
    largest first when [sortOrder] is [desc] or absent, smallest first
    otherwise. *)
Theorem list_sessions_filters_and_orders_by_size :
  forall (getTime : string -> Js.num) (now : Z) (root : Fs.Root)
         (args : SessionParser.ListOptions.t),
    match ListSessions.listSessionsHandler getTime now root args with
    | successResponse r =>
        let sessions := SessionParser.SessionList.sessions r in
        Forall (Derived.listedOk getTime now args) sessions
        /\ (SessionParser.orDefault (SessionParser.ListOptions.sortBy args)
                                    "date" <> "date" ->
            StronglySorted
              (fun a b =>
                 if (SessionParser.orDefault
                       (SessionParser.ListOptions.sortOrder args) "desc"
                     =? "desc")%string
                 then SessionInfo.sizeBytes b <= SessionInfo.sizeBytes a
                 else SessionInfo.sizeBytes a <= SessionInfo.sizeBytes b)
              sessions)
    | errorResponse _ => True
    end.
Proof.
  intros getTime now root args.
  unfold ListSessions.listSessionsHandler, SessionParser.listSessions.
  destruct root as [e|dirs]; [exact I|].
  pose proof (listDirs_ok getTime now args dirs [] (Forall_nil _)) as H.
  destruct (SessionParser.listDirs getTime now args dirs []) as [all|e];
    [|exact I].
  cbn [respond]. cbv zeta. cbn [SessionParser.SessionList.sessions].
  split.
  - rewrite Forall_forall in *. intros s Hs. apply slice_incl in Hs.
    apply sort_In in Hs. now apply H.
  - intro Hby. apply slice_sorted.
    destruct (String.eqb_spec
                (SessionParser.orDefault
                   (SessionParser.ListOptions.sortOrder args) "desc") "desc")
      as [D|D].
    + apply (sort_sorted (SessionParser.compareSessions getTime args)
                         SessionInfo.sizeBytes).
      intros a b. unfold SessionParser.compareSessions. cbv zeta.
      apply String.eqb_neq in Hby. rewrite Hby.
      apply String.eqb_eq in D. rewrite D. cbn [Js.neg option_map].
      f_equal. lia.
    + pose proof (sort_sorted (SessionParser.compareSessions getTime args)
                    (fun s => - SessionInfo.sizeBytes s)) as S.
      cbv beta in S.
      assert (C : forall a b,
                 SessionParser.compareSessions getTime args a b
                 = Some (- SessionInfo.sizeBytes b - - SessionInfo.sizeBytes a)).
      { intros a b. unfold SessionParser.compareSessions. cbv zeta.
        apply String.eqb_neq in Hby. rewrite Hby.
        apply String.eqb_neq in D. rewrite D. f_equal. lia. }
      specialize (S C all).
      revert S. apply sorted_impl. intros a b Hab. lia.
Qed.

(** ** The lookup of sessions by branch *)



Section BranchFacts.

Variable args : FindSessionsByBranch.Args.




End BranchFacts.


(** ** The context of a match *)










Section SearchFacts.

Variable getTime : string -> Js.num.
Variable now : Z.
Variable args : SearchSessionContent.Args.





End SearchFacts.


(** ** The data of [get_session] by format *)

Lemma parse_roles lines v :
  Forall (fun m => Derived.roleOk (ParsedMessage.role m))
         (ParseVars.allMessages v) ->
  Forall (fun m => Derived.roleOk (ParsedMessage.role m))
         (ParseVars.allMessages (fold_left SessionParser.parseStep lines v)).
Proof.
  revert v. induction lines as [|line lines IH]; intros v H; [exact H|].
  cbn [fold_left]. apply IH.
  destruct line as [| |msg]; cbn [SessionParser.parseStep]; try exact H.
  cbv zeta. cbn [ParseVars.allMessages].
  destruct (SessionMessage.isUserOrAssistant msg) eqn:U; [|exact H].
  cbn [ParseVars.allMessages].
  destruct (SessionMessage.message msg) as [m|]; [|exact H].
  apply Forall_app. split; [exact H|]. constructor; [|constructor].
  cbn [ParsedMessage.role]. unfold SessionMessage.isUserOrAssistant in U.
  apply orb_true_iff in U. destruct U as [U|U]; apply String.eqb_eq in U;
    [now left|now right].
Qed.

Lemma toolCallNames_not_empty content :
  SessionParser.toolCallNames content <> Some [].
Proof.
  unfold SessionParser.toolCallNames.
  destruct (SessionParser.extractToolCallsFromContent content);
    [discriminate|]. cbn [map]. discriminate.
Qed.

Lemma parseSessionFile_data f sessionId projectPath format includeToolCalls
  limit offset s :
  SessionParser.parseSessionFile f sessionId projectPath format
    includeToolCalls limit offset = Return s ->
  Derived.dataOk format includeToolCalls (Session.data s).
Proof.
  unfold SessionParser.parseSessionFile. cbv zeta.
  pose proof (parse_roles (Fs.lines f) ParseVars.init (Forall_nil _)) as R.
  set (v := fold_left SessionParser.parseStep (Fs.lines f) ParseVars.init) in *.
  destruct (ParseVars.startedAt v) as [startedAt|]; [|discriminate].
  destruct (Js.truthy startedAt); [|discriminate].
  intro E. injection E as <-. cbn [Session.data].
  assert (P : Forall (fun m => Derived.roleOk (ParsedMessage.role m))
                (Js.slice (ParseVars.allMessages v) offset (offset + limit))).
  { rewrite Forall_forall in *. intros m Hm. apply R.
    now apply slice_incl in Hm. }
  set (page := Js.slice (ParseVars.allMessages v) offset (offset + limit)) in *.
  clearbody page. clear R.
  destruct (String.eqb_spec format "markdown") as [M|M]; cbn [orb].
  { exact M. }
  destruct (String.eqb_spec format "json") as [J|J].
  { split; [exact J|]. rewrite Forall_forall in *. intros m Hm.
    apply filter_In in Hm. destruct Hm as [Hm K].
    apply in_map_iff in Hm. destruct Hm as [p [<- Hp]].
    split; [exact (P p Hp)|].
    intros ->. unfold SessionParser.keepLegacy in K. cbn [orb] in K.
    now apply negb_true_iff in K. }
  destruct (String.eqb_spec format "full") as [F|F].
  { split; [exact F|]. rewrite Forall_forall in *. intros m Hm.
    apply in_map_iff in Hm. destruct Hm as [p [<- Hp]]. exact (P p Hp). }
  destruct (String.eqb_spec format "standard") as [S|S].
  { split; [exact S|]. rewrite Forall_forall in *. intros m Hm.
    apply in_map_iff in Hm. destruct Hm as [p [<- Hp]].
    cbn [StandardMessage.role StandardMessage.text StandardMessage.toolCalls].
    split; [exact (P p Hp)|]. split; [|apply toolCallNames_not_empty].
    unfold Js.orUndefined. cbn [Js.truthyOpt].
    destruct (SessionParser.extractContentText (ParsedMessage.rawContent p));
      cbn [Js.truthy]; discriminate. }
  destruct (String.eqb_spec format "minimal") as [N|N].
  { split; [exact N|]. rewrite Forall_forall in *. intros m Hm.
    apply in_map_iff in Hm. destruct Hm as [p [<- Hp]].
    cbn [MinimalMessage.role MinimalMessage.contentLength
         MinimalMessage.toolCalls].
    split; [exact (P p Hp)|]. split; [|apply toolCallNames_not_empty].
    unfold Js.len. lia. }
  split; [|exact P].
  cbn [In]. intuition congruence.
Qed.

(** X18. The [data] of a result of [get_session] has the shape of the
    format asked for (default [standard]; a format that is none of the
    five gives the parsed messages as they are), and every message in
    it is a user or an assistant message.  In the format [json]
    without [includeToolCalls] no message holds the text [[Tool]; in
    the formats [standard] and [minimal] a message never has an empty
    text or an empty list of tool calls: the field is absent
    instead. *)
Theorem get_session_data_by_format :
  forall (root : Fs.Root) (args : GetSession.Args),
    match GetSession.getSessionHandler root args with
    | successResponse s =>
        Derived.dataOk
          (SessionParser.orDefault (GetSession.format args) "standard")
          (SessionParser.orDefault (GetSession.includeToolCalls args) false)
          (Session.data s)
    | errorResponse _ => True
    end.
Proof.
  intros root args.
  destruct (GetSession.getSessionHandler root args) as [s|m] eqn:E;
    [|exact I].
  unfold GetSession.getSessionHandler in E. cbv zeta in E.
  destruct (negb _); [discriminate|].
  unfold SessionParser.getSession in E. cbv zeta in E.
  cbn [SessionParser.GetSessionOptions.sessionId
       SessionParser.GetSessionOptions.format
       SessionParser.GetSessionOptions.includeToolCalls
       SessionParser.GetSessionOptions.limit
       SessionParser.GetSessionOptions.offset] in E.
  destruct root as [e|dirs]; [discriminate|].
  destruct (SessionParser.getSessionIn _ _ _ _ _ _) as [s'|m] eqn:G;
    [|discriminate].
  cbn [respond] in E. injection E as <-.
  apply getSessionIn_inv in G. destruct G as [d [f [_ [_ G]]]].
  exact (parseSessionFile_data _ _ _ _ _ _ _ _ G).
Qed.

(** ** The summary of a session *)





(** ** Entries that are no session files *)

Ltac drop_entry IH N :=
  cbn [filter fst]; unfold Derived.isSession at 1; cbn [fst];
  rewrite N; cbn [negb].

Lemma listFiles_sessionsOnly getTime now options projectPath files sessions :
  SessionParser.listFiles getTime now options projectPath
    (filter Derived.isSession files) sessions
  = SessionParser.listFiles getTime now options projectPath files sessions.
Proof.
  revert sessions. induction files as [|[file f] files IH]; intro sessions;
    [reflexivity|].
  destruct (Fs.notASession file) eqn:N; drop_entry IH N;
    cbn [SessionParser.listFiles]; rewrite N; [apply IH|].
  destruct (SessionParser.getSessionInfo f (Fs.sessionIdOf file) projectPath);
    [|apply IH].
  cbv zeta. destruct (_ || _)%bool; [apply IH|].
  destruct (_ >=? _); [reflexivity|apply IH].
Qed.

Lemma listDirs_sessionsOnly getTime now options dirs sessions :
  SessionParser.listDirs getTime now options (map Derived.sessionsOnly dirs)
    sessions
  = SessionParser.listDirs getTime now options dirs sessions.
Proof.
  revert sessions. induction dirs as [|d dirs IH]; intro sessions;
    [reflexivity|].
  cbn [map SessionParser.listDirs].
  unfold SessionParser.skipProject, Fs.projectPath.
  cbn [Derived.sessionsOnly Fs.dirName Fs.listing].
  destruct (_ && _)%bool; [apply IH|].
  destruct (Fs.listing d) as [e|files]; [reflexivity|].
  unfold Fs.projectPath. cbn [Fs.dirName].
  now rewrite listFiles_sessionsOnly, IH.
Qed.

Lemma searchFiles_sessionsOnly getTime now args projectPath files results :
  SearchSessionContent.searchFiles getTime now args projectPath
    (filter Derived.isSession files) results
  = SearchSessionContent.searchFiles getTime now args projectPath files results.
Proof.
  revert results. induction files as [|[file f] files IH]; intro results;
    [reflexivity|].
  destruct (Fs.notASession file) eqn:N; drop_entry IH N;
    cbn [SearchSessionContent.searchFiles]; rewrite N; [apply IH|].
  cbv zeta. destruct (_ >=? _); [reflexivity|apply IH].
Qed.

Lemma searchDirs_sessionsOnly getTime now args dirs results :
  SearchSessionContent.searchDirs getTime now args
    (map Derived.sessionsOnly dirs) results
  = SearchSessionContent.searchDirs getTime now args dirs results.
Proof.
  revert results. induction dirs as [|d dirs IH]; intro results;
    [reflexivity|].
  cbn [map SearchSessionContent.searchDirs].
  unfold SessionParser.skipProject, Fs.projectPath.
  cbn [Derived.sessionsOnly Fs.dirName Fs.listing].
  destruct (_ && _)%bool; [apply IH|].
  destruct (Fs.listing d) as [e|files]; [apply IH|].
  cbv zeta. unfold Fs.projectPath. cbn [Fs.dirName].
  rewrite searchFiles_sessionsOnly.
  destruct (_ >=? _); [reflexivity|apply IH].
Qed.

Lemma branch_scanFiles_sessionsOnly args projectPath files results :
  FindSessionsByBranch.scanFiles args projectPath
    (filter Derived.isSession files) results
  = FindSessionsByBranch.scanFiles args projectPath files results.
Proof.
  revert results. induction files as [|[file f] files IH]; intro results;
    [reflexivity|].
  destruct (Fs.notASession file) eqn:N; drop_entry IH N;
    cbn [FindSessionsByBranch.scanFiles]; rewrite N; [apply IH|].
  cbv zeta. destruct (_ >=? _); [reflexivity|apply IH].
Qed.

Lemma branch_scanDirs_sessionsOnly args dirs results :
  FindSessionsByBranch.scanDirs args (map Derived.sessionsOnly dirs) results
  = FindSessionsByBranch.scanDirs args dirs results.
Proof.
  revert results. induction dirs as [|d dirs IH]; intro results;
    [reflexivity|].
  cbn [map FindSessionsByBranch.scanDirs].
  unfold SessionParser.skipProject, Fs.projectPath.
  cbn [Derived.sessionsOnly Fs.dirName Fs.listing].
  destruct (_ && _)%bool; [apply IH|].
  destruct (Fs.listing d) as [e|files]; [apply IH|].
  unfold Fs.projectPath. cbn [Fs.dirName].
  now rewrite branch_scanFiles_sessionsOnly, IH.
Qed.

Lemma file_scanFiles_sessionsOnly args projectPath files acc :
  FindSessionsByFile.scanFiles args projectPath
    (filter Derived.isSession files) acc
  = FindSessionsByFile.scanFiles args projectPath files acc.
Proof.
  revert acc. induction files as [|[file f] files IH]; intro acc;
    [reflexivity|].
  destruct (Fs.notASession file) eqn:N; drop_entry IH N;
    cbn [FindSessionsByFile.scanFiles]; rewrite N; [apply IH|].
  destruct (Counts.has (snd acc) (Fs.sessionIdOf file)); [apply IH|].
  cbv zeta. destruct (_ >=? _); [reflexivity|apply IH].
Qed.

Lemma file_scanDirs_sessionsOnly args dirs acc :
  FindSessionsByFile.scanDirs args (map Derived.sessionsOnly dirs) acc
  = FindSessionsByFile.scanDirs args dirs acc.
Proof.
  revert acc. induction dirs as [|d dirs IH]; intro acc; [reflexivity|].
  cbn [map FindSessionsByFile.scanDirs].
  unfold SessionParser.skipProject, Fs.projectPath.
  cbn [Derived.sessionsOnly Fs.dirName Fs.listing].
  destruct (_ && _)%bool; [apply IH|].
  destruct (Fs.listing d) as [e|files]; [apply IH|].
  cbv zeta. unfold Fs.projectPath. cbn [Fs.dirName].
  rewrite file_scanFiles_sessionsOnly.
  destruct (_ >=? _); [reflexivity|apply IH].
Qed.

Lemma usage_scanFiles_sessionsOnly getTime now args files acc :
  GetToolUsageStats.scanFiles getTime now args
    (filter Derived.isSession files) acc
  = GetToolUsageStats.scanFiles getTime now args files acc.
Proof.
  revert acc. induction files as [|[file f] files IH]; intro acc;
    [reflexivity|].
  destruct (Fs.notASession file) eqn:N; drop_entry IH N;
    cbn [GetToolUsageStats.scanFiles]; rewrite N; [apply IH|].
  destruct (_ && _)%bool; [apply IH|].
  cbv zeta. destruct (GetToolUsageStats.enough _ _); [reflexivity|apply IH].
Qed.

Lemma usage_scanDirs_sessionsOnly getTime now args dirs acc :
  GetToolUsageStats.scanDirs getTime now args
    (map Derived.sessionsOnly dirs) acc
  = GetToolUsageStats.scanDirs getTime now args dirs acc.
Proof.
  revert acc. induction dirs as [|d dirs IH]; intro acc; [reflexivity|].
  cbn [map GetToolUsageStats.scanDirs].
  unfold SessionParser.skipProject, Fs.projectPath.
  cbn [Derived.sessionsOnly Fs.dirName Fs.listing].
  destruct (_ && _)%bool; [apply IH|].
  destruct (Fs.listing d) as [e|files]; [apply IH|].
  cbv zeta. rewrite usage_scanFiles_sessionsOnly.
  destruct (GetToolUsageStats.enough _ _); [reflexivity|apply IH].
Qed.

(** X20. The five views that walk the project directories never read an
    entry whose name does not end in [.jsonl] or starts with [agent-]:
    each gives the same result on the projects directory and on the
    directory without those entries. *)
Theorem scanning_views_ignore_other_entries :
  forall (getTime : string -> Js.num) (now : Z)
         (toFixed1 : Z -> Z -> string) (root : Fs.Root),
    (forall args,
        ListSessions.listSessionsHandler getTime now
          (Derived.sessionsOnlyRoot root) args
        = ListSessions.listSessionsHandler getTime now root args)
    /\ (forall args,
          SearchSessionContent.searchSessionContentHandler getTime now
            (Derived.sessionsOnlyRoot root) args
          = SearchSessionContent.searchSessionContentHandler getTime now
              root args)
    /\ (forall args,
          FindSessionsByBranch.findSessionsByBranchHandler getTime
            (Derived.sessionsOnlyRoot root) args
          = FindSessionsByBranch.findSessionsByBranchHandler getTime root args)
    /\ (forall args,
          FindSessionsByFile.findSessionsByFileHandler getTime
            (Derived.sessionsOnlyRoot root) args
          = FindSessionsByFile.findSessionsByFileHandler getTime root args)
    /\ (forall args,
          GetToolUsageStats.getToolUsageStatsHandler getTime now toFixed1
            (Derived.sessionsOnlyRoot root) args
          = GetToolUsageStats.getToolUsageStatsHandler getTime now toFixed1
              root args).
Proof.
  intros getTime now toFixed1 root.
  destruct root as [e|dirs]; [repeat split|].
  cbn [Derived.sessionsOnlyRoot].
  split; [|split; [|split; [|split]]]; intro args.
  - unfold ListSessions.listSessionsHandler, SessionParser.listSessions.
    now rewrite listDirs_sessionsOnly.
  - unfold SearchSessionContent.searchSessionContentHandler.
    now rewrite searchDirs_sessionsOnly.
  - unfold FindSessionsByBranch.findSessionsByBranchHandler.
    now rewrite branch_scanDirs_sessionsOnly.
  - unfold FindSessionsByFile.findSessionsByFileHandler.
    now rewrite file_scanDirs_sessionsOnly.
  - unfold GetToolUsageStats.getToolUsageStatsHandler.
    now rewrite usage_scanDirs_sessionsOnly.
Qed.

(** ** Durations *)

(** X21. A duration below one minute, a negative one included, is shown
    in whole seconds, rounded down, by [compare_sessions] and by
    [get_session_timeline] alike: a session whose last timestamp lies
    an hour before its first one lasts [-3600s]. *)
Theorem formatDuration_below_a_minute :
  forall ms : Z,
    ms < 60000 ->
    CompareSessions.formatDuration (Some ms) = Js.showZ (ms / 1000) ++ "s"
    /\ GetSessionTimeline.formatDuration (Some ms)
       = Js.showZ (ms / 1000) ++ "s".
Proof.
  intros ms H.
  assert (S : ms / 1000 < 60) by (apply Z.div_lt_upper_bound; lia).
  assert (M : ms / 1000 / 60 < 1) by (apply Z.div_lt_upper_bound; lia).
  assert (Hh : ms / 1000 / 60 / 60 < 1) by (apply Z.div_lt_upper_bound; lia).
  unfold CompareSessions.formatDuration, GetSessionTimeline.formatDuration.
  cbv zeta.
  destruct (Z.gtb_spec (ms / 1000 / 60 / 60) 0) as [G|_]; [lia|].
  destruct (Z.gtb_spec (ms / 1000 / 60) 0) as [G|_]; [lia|].
  split; reflexivity.
Qed.

Lemma formatDuration_below_a_minute_witness :
  -3600000 < 60000
  /\ CompareSessions.formatDuration (Some (-3600000)) = "-3600s"
  /\ GetSessionTimeline.formatDuration (Some (-3600000)) = "-3600s".
Proof.
  assert (H : -3600000 < 60000) by lia.
  exact (conj H (formatDuration_below_a_minute (-3600000) H)).
Defined.
